(** * pyEQL equation-of-state engines ([src/pyEQL/engines.py])

    A shallow embedding of the [EOS] engines of pyEQL and the properties
    of the model-selection and aggregation logic of [NativeEOS].

    Conventions of the embedding.
    - A pint [Quantity] is represented by its magnitude, a rational
      number: dimensionless quantities by the number itself, volumes in
      the unit of the accumulator that carries them (litres).  Float
      literals of the source are the decimal rationals they denote.
    - Python exceptions are the [Raise] outcome of a small logging/error
      monad; the records handed to [logger] are collected in order.
    - The collaborators that live in other modules (the solution
      container, the salt decomposition, the parameter database [db],
      the correlation library [ac]) are interfaces: records of
      observations and functions, bound once in a [Section]. *)

From Stdlib Require Import ZArith QArith Qfield List String Bool Lia Permutation.
Import ListNotations.

Local Open Scope string_scope.
Local Open Scope list_scope.

(** ** Quantities *)

Abbreviation Quantity := Q (only parsing).

(** [unit("1 dimensionless")] *)
Definition unit_1_dimensionless : Quantity := 1%Q.

(** [unit("0 L")] and [0 * unit("L")] *)
Definition unit_0_L : Quantity := 0%Q.

(** ** Exceptions, log records and the monad that carries them *)

Inductive exn : Type :=
| KeyError (key : string)
| IndexError
| ZeroDivisionError
| ValueError
| NotImplementedError.

Inductive outcome (A : Type) : Type :=
| Return (a : A)
| Raise (e : exn).

Arguments Return {A} a.
Arguments Raise {A} e.

(** ** Collaborators: salts, solutes, solutions *)

(** [pyEQL.salt_ion_match.Salt]: one cation/anion pair. *)
Record Salt : Type := {
  formula : string;
  cation : string;
  anion : string;
  nu_cation : Z;
  nu_anion : Z;
  z_cation : Z;
  z_anion : Z
}.

Module Solute.

Record t : Type := {
  get_formal_charge : Z;
  get_moles : Quantity;
  get_parameter : string -> Quantity
}.

End Solute.

(** The solution container.  [components] is the dict of the source, in
    insertion order; [ionic_strength] is [solution.ionic_strength.magnitude]
    and [temperature] is [str(solution.temperature)]. *)
Record Solution : Type := {
  components : list (string * Solute.t);
  ionic_strength : Quantity;
  temperature : string;
  get_amount : string -> string -> Quantity;
  get_salt : Salt;
  get_salt_list : list (Salt * Quantity);
  get_solute : string -> Solute.t
}.

Inductive log_level : Type := INFO | WARNING.

(** One constructor per message the engine hands to [logger]. *)
Inductive log_record : Type :=
| no_salts_found (solute : string)
| pitzer_activity_calculated (solute : string) (gamma : Quantity) (salt : Salt)
| using_debyehuckel (I : Quantity)
| using_guntelberg (I : Quantity)
| using_davies (I : Quantity)
| ionic_strength_too_high (solute : string)
| pitzer_osmotic_calculated (phi : Quantity) (salt_formula : string)
| no_pitzer_osmotic_parameters (salt_formula : string)
| pitzer_volume_updated (salt_formula : string)
| partial_molar_volume_updated (item : string)
| no_partial_molar_volume (item : string).

Definition levelname (r : log_record) : log_level :=
  match r with
  | no_salts_found _ => WARNING
  | pitzer_activity_calculated _ _ _ => INFO
  | using_debyehuckel _ => INFO
  | using_guntelberg _ => INFO
  | using_davies _ => INFO
  | ionic_strength_too_high _ => WARNING
  | pitzer_osmotic_calculated _ _ => INFO
  | no_pitzer_osmotic_parameters _ => WARNING
  | pitzer_volume_updated _ => INFO
  | partial_molar_volume_updated _ => INFO
  | no_partial_molar_volume _ => WARNING
  end.

(** A computation yields an outcome and the log records it emitted. *)
Definition M (A : Type) : Type := (outcome A * list log_record)%type.

Definition ret {A : Type} (a : A) : M A := (Return a, []).

Definition raise {A : Type} (e : exn) : M A := (Raise e, []).

Definition bind {A B : Type} (m : M A) (k : A -> M B) : M B :=
  match m with
  | (Return a, l) => let (r, l') := k a in (r, l ++ l')
  | (Raise e, l) => (Raise e, l)
  end.

Definition logger (r : log_record) : M unit := (Return tt, [r]).

Declare Scope eos_scope.
Delimit Scope eos_scope with eos.

Notation "x <- m ;; k" := (bind m (fun x => k))
  (at level 61, m at next level, right associativity) : eos_scope.
Notation "m ;;; k" := (bind m (fun _ => k))
  (at level 61, right associativity) : eos_scope.

Local Open Scope eos_scope.

(** [for x in xs: acc = body(acc, x)] *)
Fixpoint for_each {A B : Type} (body : A -> B -> M A) (acc : A) (xs : list B) : M A :=
  match xs with
  | [] => ret acc
  | x :: xs' => acc' <- body acc x ;; for_each body acc' xs'
  end.

(** [d[key]] on a dict. *)
Fixpoint dict_get {V : Type} (d : list (string * V)) (key : string) : option V :=
  match d with
  | [] => None
  | (k, v) :: d' => if String.eqb key k then Some v else dict_get d' key
  end.

Definition getitem {V : Type} (d : list (string * V)) (key : string) : M V :=
  match dict_get d key with
  | Some v => ret v
  | None => raise (KeyError key)
  end.

(** [l[i]] on a list or tuple. *)
Definition subscript (l : list Q) (i : nat) : M Q :=
  match nth_error l i with
  | Some v => ret v
  | None => raise IndexError
  end.

(** [x / y] *)
Definition truediv (x y : Q) : M Q :=
  if Qeq_bool y 0 then raise ZeroDivisionError else ret (x / y)%Q.

(** [item in [a, b]] on strings. *)
Definition str_in (item : string) (l : list string) : bool :=
  existsb (String.eqb item) l.

(** ** The salt decomposition, the parameter database [db] and the
    correlation library [ac] *)

Module salt_ion_match.

(** [generate_salt_list(solution, unit)] and the method
    [Salt.get_effective_molality(ionic_strength)]. *)
Record t : Type := {
  generate_salt_list : Solution -> string -> list (Salt * Quantity);
  get_effective_molality : Salt -> Quantity -> Quantity
}.

End salt_ion_match.

Module db.

(** What [db.get_parameter] returns; [get_value] is its coefficient tuple. *)
Record parameter : Type := { get_value : list Q }.

(** The database as it stands after [db.search_parameters(formula)]. *)
Record t : Type := {
  has_parameter : string -> string -> bool;
  get_parameter : string -> string -> parameter
}.

End db.

Module ac.

Record t : Type := {
  get_activity_coefficient_pitzer :
    Quantity -> Quantity -> Q -> Q -> Q -> Q -> Q -> Q ->
    Z -> Z -> Z -> Z -> string -> Quantity;
  get_activity_coefficient_debyehuckel : Quantity -> Z -> string -> Quantity;
  get_activity_coefficient_guntelberg : Quantity -> Z -> string -> Quantity;
  get_activity_coefficient_davies : Quantity -> Z -> string -> Quantity;
  get_osmotic_coefficient_pitzer :
    Quantity -> Quantity -> Q -> Q -> Q -> Q -> Q -> Q ->
    Z -> Z -> Z -> Z -> string -> Quantity;
  get_apparent_volume_pitzer :
    Quantity -> Quantity -> Q -> Q -> Q -> Q -> Q -> Q -> Q ->
    Z -> Z -> Z -> Z -> string -> Quantity
}.

End ac.

(** ** The abstract base class [EOS] *)

Module EOS.

(** The four operations every equation of state implements.
    [equilibrate] works on the solution in place: it yields its outcome and
    the solution it leaves. *)
Class t (engine : Type) : Type := {
  get_activity_coefficient : engine -> Solution -> string -> M Quantity;
  get_osmotic_coefficient : engine -> Solution -> M Quantity;
  get_solute_volume : engine -> Solution -> M Quantity;
  equilibrate : engine -> Solution -> outcome unit * Solution
}.

End EOS.

(** ** IdealEOS *)

Module IdealEOS.

Definition get_activity_coefficient (solution : Solution) (solute : string) : M Quantity :=
  ret unit_1_dimensionless.

Definition get_osmotic_coefficient (solution : Solution) : M Quantity :=
  ret unit_1_dimensionless.

Definition get_solute_volume (solution : Solution) : M Quantity :=
  ret unit_0_L.

(** The body is a docstring only: the call returns [None] and the solution
    it was given is the solution it leaves. *)
Definition equilibrate (solution : Solution) : outcome unit * Solution :=
  (Return tt, solution).

#[export] Instance eos : EOS.t unit :=
  {| EOS.get_activity_coefficient := fun _ => get_activity_coefficient;
     EOS.get_osmotic_coefficient := fun _ => get_osmotic_coefficient;
     EOS.get_solute_volume := fun _ => get_solute_volume;
     EOS.equilibrate := fun _ => equilibrate |}.

End IdealEOS.

(** ** NativeEOS *)

Module NativeEOS.

Section Engine.

Variable lib : ac.t.
Variable paramsDB : db.t.
Variable salts : salt_ion_match.t.

(** *** get_activity_coefficient *)

(** Lines 212-216: the loop that identifies the salt of the solute. *)
Definition matches (solute : string) (item : Salt) : bool :=
  String.eqb solute (cation item) || String.eqb solute (anion item).

Definition find_salt (solute : string) (salt_list : list (Salt * Quantity)) : option Salt :=
  fold_left
    (fun Salt item => if matches solute (fst item) then Some (fst item) else Salt)
    salt_list None.

(** Lines 238-247: alpha1 and alpha2 of the activity call. *)
Definition activity_alphas (Salt : Salt) : Q * Q :=
  if (nu_cation Salt >=? 2)%Z && (nu_anion Salt <=? -2)%Z then
    if (nu_cation Salt >=? 3)%Z || (nu_anion Salt <=? -3)%Z then (2, 50)%Q
    else (14 # 10, 12)%Q
  else (2, 0)%Q.

(** Lines 223-323: the model selection once the salt is known.  The call
    [db.search_parameters(Salt.formula)] of line 224 loads the database that
    [paramsDB] stands for. *)
Definition activity_coefficient_of_salt
    (solution : Solution) (solute : string) (ion : Solute.t) (Salt : Salt) : M Quantity :=
  if db.has_parameter paramsDB (formula Salt) "pitzer_parameters_activity" then
    let param := db.get_parameter paramsDB (formula Salt) "pitzer_parameters_activity" in
    let alpha1 := fst (activity_alphas Salt) in
    let alpha2 := snd (activity_alphas Salt) in
    let molality :=
      salt_ion_match.get_effective_molality salts Salt (ionic_strength solution) in
    p0 <- subscript (db.get_value param) 0 ;;
    p1 <- subscript (db.get_value param) 1 ;;
    p2 <- subscript (db.get_value param) 2 ;;
    p3 <- subscript (db.get_value param) 3 ;;
    let activity_coefficient :=
      ac.get_activity_coefficient_pitzer lib
        (ionic_strength solution) molality alpha1 alpha2 p0 p1 p2 p3
        (z_cation Salt) (z_anion Salt) (nu_cation Salt) (nu_anion Salt)
        (temperature solution) in
    logger (pitzer_activity_calculated solute activity_coefficient Salt) ;;;
    ret activity_coefficient
  else if Qle_bool (ionic_strength solution) (5 # 1000) then
    logger (using_debyehuckel (ionic_strength solution)) ;;;
    ret (ac.get_activity_coefficient_debyehuckel lib
           (ionic_strength solution) (Solute.get_formal_charge ion) (temperature solution))
  else if Qle_bool (ionic_strength solution) (1 # 10) then
    logger (using_guntelberg (ionic_strength solution)) ;;;
    ret (ac.get_activity_coefficient_guntelberg lib
           (ionic_strength solution) (Solute.get_formal_charge ion) (temperature solution))
  else if Qle_bool (ionic_strength solution) (5 # 10) then
    logger (using_davies (ionic_strength solution)) ;;;
    ret (ac.get_activity_coefficient_davies lib
           (ionic_strength solution) (Solute.get_formal_charge ion) (temperature solution))
  else
    logger (ionic_strength_too_high solute) ;;;
    ret unit_1_dimensionless.

Definition get_activity_coefficient (solution : Solution) (solute : string) : M Quantity :=
  ion <- getitem (components solution) solute ;;
  match find_salt solute (salt_ion_match.generate_salt_list salts solution "mol/kg") with
  | None =>
      logger (no_salts_found solute) ;;;
      ret unit_1_dimensionless
  | Some Salt => activity_coefficient_of_salt solution solute ion Salt
  end.

(** *** get_osmotic_coefficient *)

(** Lines 423-432: alpha1 and alpha2 of the osmotic call. *)
Definition osmotic_alphas (item : Salt) : Q * Q :=
  if (z_cation item >=? 2)%Z && (z_anion item <=? -2)%Z then
    if (z_cation item >=? 3)%Z || (z_anion item <=? -3)%Z then (2, 50)%Q
    else (14 # 10, 12)%Q
  else (2, 0)%Q.

(** Lines 415-478: one round of the loop over [salt_list]; the accumulator
    is [(effective_osmotic_sum, molality_sum)], the entry is a key of the
    dict together with [salt_list[item]]. *)
Definition osmotic_loop_body
    (solution : Solution) (acc : Q * Q) (entry : Salt * Quantity) : M (Q * Q) :=
  let effective_osmotic_sum := fst acc in
  let molality_sum := snd acc in
  let item := fst entry in
  if String.eqb (formula item) "HOH" then ret acc
  else
    let alpha1 := fst (osmotic_alphas item) in
    let alpha2 := snd (osmotic_alphas item) in
    let concentration := snd entry in
    let molality_sum := (molality_sum + concentration)%Q in
    if db.has_parameter paramsDB (formula item) "pitzer_parameters_activity" then
      let param := db.get_parameter paramsDB (formula item) "pitzer_parameters_activity" in
      p0 <- subscript (db.get_value param) 0 ;;
      p1 <- subscript (db.get_value param) 1 ;;
      p2 <- subscript (db.get_value param) 2 ;;
      p3 <- subscript (db.get_value param) 3 ;;
      let osmotic_coefficient :=
        ac.get_osmotic_coefficient_pitzer lib
          (ionic_strength solution) concentration alpha1 alpha2 p0 p1 p2 p3
          (z_cation item) (z_anion item) (nu_cation item) (nu_anion item)
          (temperature solution) in
      logger (pitzer_osmotic_calculated osmotic_coefficient (formula item)) ;;;
      ret ((effective_osmotic_sum + concentration * osmotic_coefficient)%Q, molality_sum)
    else
      logger (no_pitzer_osmotic_parameters (formula item)) ;;;
      ret ((effective_osmotic_sum + concentration * unit_1_dimensionless)%Q, molality_sum).

Definition get_osmotic_coefficient (solution : Solution) : M Quantity :=
  sums <- for_each (osmotic_loop_body solution) (0%Q, 0%Q) (get_salt_list solution) ;;
  truediv (fst sums) (snd sums).

(** *** get_solute_volume *)

(** Lines 510-519: alpha1 and alpha2 of the apparent-volume call. *)
Definition volume_alphas (Salt : Salt) : Q * Q :=
  if (nu_cation Salt >=? 2)%Z && (nu_anion Salt >=? 2)%Z then
    if (nu_cation Salt >=? 3)%Z || (nu_anion Salt >=? 3)%Z then (2, 50)%Q
    else (14 # 10, 12)%Q
  else (2, 0)%Q.

(** [solute_vol.to("L")]: the accumulator is created as [0 * unit("L")] and
    [+=] keeps the unit of its left operand, so the magnitude is unchanged. *)
Definition to (q : Quantity) (units : string) : Quantity := q.

(** Lines 492-549: the Pitzer part; yields [(solute_vol, pitzer_calc)]. *)
Definition pitzer_volume (solution : Solution) (Salt : Salt) : M (Quantity * bool) :=
  let solute_vol := unit_0_L in
  if db.has_parameter paramsDB (formula Salt) "pitzer_parameters_volume" then
    let param := db.get_parameter paramsDB (formula Salt) "pitzer_parameters_volume" in
    let molality :=
      ((get_amount solution (cation Salt) "mol/kg"
        + get_amount solution (anion Salt) "mol/kg") / 2)%Q in
    let alpha1 := fst (volume_alphas Salt) in
    let alpha2 := snd (volume_alphas Salt) in
    p0 <- subscript (db.get_value param) 0 ;;
    p1 <- subscript (db.get_value param) 1 ;;
    p2 <- subscript (db.get_value param) 2 ;;
    p3 <- subscript (db.get_value param) 3 ;;
    p4 <- subscript (db.get_value param) 4 ;;
    let apparent_vol :=
      ac.get_apparent_volume_pitzer lib
        (ionic_strength solution) molality alpha1 alpha2 p0 p1 p2 p3 p4
        (z_cation Salt) (z_anion Salt) (nu_cation Salt) (nu_anion Salt)
        (temperature solution) in
    per_cation <- truediv (get_amount solution (cation Salt) "mol") (inject_Z (nu_cation Salt)) ;;
    per_anion <- truediv (get_amount solution (anion Salt) "mol") (inject_Z (nu_anion Salt)) ;;
    let solute_vol := (solute_vol + apparent_vol * (per_cation + per_anion) / 2)%Q in
    logger (pitzer_volume_updated (formula Salt)) ;;;
    ret (solute_vol, true)
  else ret (solute_vol, false).

(** Lines 553-572: one round of the loop over [solution.components]. *)
Definition volume_loop_body
    (solution : Solution) (Salt : Salt) (pitzer_calc : bool)
    (solute_vol : Quantity) (entry : string * Solute.t) : M Quantity :=
  let item := fst entry in
  let solute := get_solute solution item in
  if str_in item ["H2O"; "HOH"] then ret solute_vol
  else if pitzer_calc && str_in item [anion Salt; cation Salt] then ret solute_vol
  else if db.has_parameter paramsDB item "partial_molar_volume" then
    let solute_vol :=
      (solute_vol + Solute.get_parameter solute "partial_molar_volume" * Solute.get_moles solute)%Q in
    logger (partial_molar_volume_updated item) ;;;
    ret solute_vol
  else
    logger (no_partial_molar_volume item) ;;;
    ret solute_vol.

Definition get_solute_volume (solution : Solution) : M Quantity :=
  let Salt := get_salt solution in
  start <- pitzer_volume solution Salt ;;
  solute_vol <- for_each (volume_loop_body solution Salt (snd start)) (fst start)
                  (components solution) ;;
  ret (to solute_vol "L").

(** *** equilibrate *)

(** Lines 576-579: the body is a docstring only.  The call returns [None]
    and leaves the solution as it found it. *)
Definition equilibrate (solution : Solution) : outcome unit * Solution :=
  (Return tt, solution).

(** [NativeEOS] as an implementation of the interface. *)
Definition eos : EOS.t unit :=
  {| EOS.get_activity_coefficient := fun _ => get_activity_coefficient;
     EOS.get_osmotic_coefficient := fun _ => get_osmotic_coefficient;
     EOS.get_solute_volume := fun _ => get_solute_volume;
     EOS.equilibrate := fun _ => equilibrate |}.

End Engine.

(** ** The aggregation rules in the words of the specification

    Second definitions, written from the prose of the specification and
    compared with the loops above. *)

Section Specification.

Variable lib : ac.t.
Variable paramsDB : db.t.

(** The alpha table as the specification's test property words it: a 2:2
    charge type gives (1.4, 12), a magnitude of 3 or more on either ion
    gives (2, 50), anything else (2, 0). *)
Definition alpha_table_by_charge_type (item : Salt) : Q * Q :=
  if (Z.abs (z_cation item) >=? 3)%Z || (Z.abs (z_anion item) >=? 3)%Z then (2, 50)%Q
  else if (Z.abs (z_cation item) >=? 2)%Z && (Z.abs (z_anion item) >=? 2)%Z then (14 # 10, 12)%Q
  else (2, 0)%Q.

Definition is_solvent (entry : Salt * Quantity) : bool :=
  String.eqb (formula (fst entry)) "HOH".

(** Every salt of the decomposition except the solvent pseudo-salt. *)
Definition aggregated_salts (solution : Solution) : list (Salt * Quantity) :=
  filter (fun entry => negb (is_solvent entry)) (get_salt_list solution).

(** The osmotic coefficient of one salt: Pitzer when the parameters are
    stored, unity otherwise. *)
Definition salt_osmotic_coefficient (solution : Solution) (entry : Salt * Quantity) : Q :=
  let item := fst entry in
  if db.has_parameter paramsDB (formula item) "pitzer_parameters_activity" then
    let value := db.get_value (db.get_parameter paramsDB (formula item) "pitzer_parameters_activity") in
    ac.get_osmotic_coefficient_pitzer lib
      (ionic_strength solution) (snd entry)
      (fst (osmotic_alphas item)) (snd (osmotic_alphas item))
      (nth 0 value 0%Q) (nth 1 value 0%Q) (nth 2 value 0%Q) (nth 3 value 0%Q)
      (z_cation item) (z_anion item) (nu_cation item) (nu_anion item)
      (temperature solution)
  else 1%Q.

Definition Qsum (l : list Q) : Q := fold_right Qplus 0%Q l.

Definition weighted_sum (solution : Solution) : Q :=
  Qsum (map (fun entry => (snd entry * salt_osmotic_coefficient solution entry)%Q)
            (aggregated_salts solution)).

Definition total_weight (solution : Solution) : Q :=
  Qsum (map snd (aggregated_salts solution)).


(** What the aggregation logs: one record per aggregated salt, a warning
    exactly for the salts that have no Pitzer parameters. *)
Definition osmotic_log (solution : Solution) : list log_record :=
  map (fun entry =>
         if db.has_parameter paramsDB (formula (fst entry)) "pitzer_parameters_activity"
         then pitzer_osmotic_calculated (salt_osmotic_coefficient solution entry)
                (formula (fst entry))
         else no_pitzer_osmotic_parameters (formula (fst entry)))
      (aggregated_salts solution).

(** Stored Pitzer tuples carry their four coefficients. *)
Definition activity_parameters_complete (solution : Solution) : Prop :=
  forall entry, In entry (aggregated_salts solution) ->
    db.has_parameter paramsDB (formula (fst entry)) "pitzer_parameters_activity" = true ->
    (4 <= List.length (db.get_value
                    (db.get_parameter paramsDB (formula (fst entry)) "pitzer_parameters_activity")))%nat.

(** The solutes the volume loop adds up: every component except water and,
    when the Pitzer part ran, the two ions of the dominant salt. *)
Definition skipped (solution : Solution) (pitzer_calc : bool) (item : string) : bool :=
  str_in item ["H2O"; "HOH"]
  || pitzer_calc && str_in item [anion (get_salt solution); cation (get_salt solution)].

Definition counted_solutes (solution : Solution) (pitzer_calc : bool) : list string :=
  filter (fun item => negb (skipped solution pitzer_calc item)) (map fst (components solution)).

Definition volume_contribution (solution : Solution) (item : string) : Q :=
  if db.has_parameter paramsDB item "partial_molar_volume" then
    (Solute.get_parameter (get_solute solution item) "partial_molar_volume"
     * Solute.get_moles (get_solute solution item))%Q
  else 0%Q.

Definition partial_molar_total (solution : Solution) (pitzer_calc : bool) : Q :=
  Qsum (map (volume_contribution solution) (counted_solutes solution pitzer_calc)).

Definition volume_log (solution : Solution) (pitzer_calc : bool) : list log_record :=
  map (fun item =>
         if db.has_parameter paramsDB item "partial_molar_volume"
         then partial_molar_volume_updated item
         else no_partial_molar_volume item)
      (counted_solutes solution pitzer_calc).

End Specification.

(** The same container with another [components] dict, every other
    observation held fixed: what the volume loop sees when only the
    components it iterates over differ. *)
Definition with_components (solution : Solution) (comps : list (string * Solute.t)) : Solution :=
  {| components := comps;
     ionic_strength := ionic_strength solution;
     temperature := temperature solution;
     get_amount := get_amount solution;
     get_salt := get_salt solution;
     get_salt_list := get_salt_list solution;
     get_solute := get_solute solution |}.

(** [item in ["H2O", "HOH"]] on an entry of the components. *)
Definition is_water (entry : string * Solute.t) : bool :=
  str_in (fst entry) ["H2O"; "HOH"].

(** ** Concrete solutions

    A small parameter database, a stand-in correlation library and a few
    solutions on which the engine is run below. *)

Module Examples.

(** Modelled from the spec: [Salt.get_effective_molality], whose class is
    defined in [pyEQL.salt_ion_match]; the effective molality is
    [2 I / (nu_cation z_cation^2 + nu_anion z_anion^2)]. *)
Definition effective_molality (Salt : Salt) (I : Quantity) : Quantity :=
  (2 * I / inject_Z (nu_cation Salt * z_cation Salt ^ 2 + nu_anion Salt * z_anion Salt ^ 2))%Q.

Definition mk_salt (f c a : string) (nu_c nu_a z_c z_a : Z) : Salt :=
  {| formula := f; cation := c; anion := a;
     nu_cation := nu_c; nu_anion := nu_a; z_cation := z_c; z_anion := z_a |}.

Definition NaCl : Salt := mk_salt "NaCl" "Na+" "Cl-" 1 1 1 (-1).
Definition KCl : Salt := mk_salt "KCl" "K+" "Cl-" 1 1 1 (-1).
Definition MgCl2 : Salt := mk_salt "MgCl2" "Mg+2" "Cl-" 1 2 2 (-1).
Definition MgSO4 : Salt := mk_salt "MgSO4" "Mg+2" "SO4-2" 1 1 2 (-2).
Definition FeCl3 : Salt := mk_salt "FeCl3" "Fe+3" "Cl-" 1 3 3 (-1).
Definition HOH : Salt := mk_salt "HOH" "H+" "OH-" 1 1 1 (-1).

(** Salts with stored Pitzer activity parameters: NaCl, MgCl2, MgSO4 and
    FeCl3 (KCl has none); with Pitzer volume parameters: NaCl and MgCl2;
    solutes with a stored partial molar volume: Na+, Cl- and K+. *)
Definition test_db : db.t :=
  {| db.has_parameter := fun name kind =>
       if String.eqb kind "pitzer_parameters_activity"
       then str_in name ["NaCl"; "MgCl2"; "MgSO4"; "FeCl3"]
       else if String.eqb kind "pitzer_parameters_volume"
       then str_in name ["NaCl"; "MgCl2"]
       else if String.eqb kind "partial_molar_volume"
       then str_in name ["Na+"; "Cl-"; "K+"]
       else false;
     db.get_parameter := fun name kind =>
       if String.eqb kind "pitzer_parameters_activity"
       then {| db.get_value := [1 # 10; 2 # 10; 0; 1 # 100]%Q |}
       else if String.eqb kind "pitzer_parameters_volume"
       then {| db.get_value := [16 # 1; 1 # 10; 2 # 10; 0; 1 # 100]%Q |}
       else {| db.get_value := [] |} |}.

(** Stand-ins for the closed forms of [pyEQL.activity_correction]: each
    one keeps the arguments the engine chooses visible in its value. *)
Definition test_ac : ac.t :=
  {| ac.get_activity_coefficient_pitzer :=
       fun I m alpha1 alpha2 b0 b1 b2 c z_c z_a nu_c nu_a T =>
         (alpha1 + alpha2 / 100 + b0 * m)%Q;
     ac.get_activity_coefficient_debyehuckel := fun I z T => (1 - I)%Q;
     ac.get_activity_coefficient_guntelberg := fun I z T => (1 - I / 2)%Q;
     ac.get_activity_coefficient_davies := fun I z T => (1 - I / 4)%Q;
     ac.get_osmotic_coefficient_pitzer :=
       fun I m alpha1 alpha2 b0 b1 b2 c z_c z_a nu_c nu_a T =>
         (alpha1 + alpha2 / 100 + b0 * m)%Q;
     ac.get_apparent_volume_pitzer :=
       fun I m alpha1 alpha2 p0 p1 p2 p3 p4 z_c z_a nu_c nu_a T =>
         ((p0 + alpha1 + alpha2 / 100 + m) / 1000)%Q |}.

(** The decomposition of a container is the one it carries. *)
Definition test_salts : salt_ion_match.t :=
  {| salt_ion_match.generate_salt_list := fun solution units => get_salt_list solution;
     salt_ion_match.get_effective_molality := effective_molality |}.

Definition mk_solute (charge : Z) (moles volume : Q) : Solute.t :=
  {| Solute.get_formal_charge := charge;
     Solute.get_moles := moles;
     Solute.get_parameter := fun _ => volume |}.

Definition water : Solute.t := mk_solute 0 (555 # 10) (18 # 1000).

Definition mk_solution
    (comps : list (string * Solute.t)) (I : Q) (dominant : Salt)
    (salts : list (Salt * Quantity)) : Solution :=
  {| components := comps;
     ionic_strength := I;
     temperature := "25 degC";
     get_amount := fun name units =>
       match dict_get comps name with
       | Some solute => Solute.get_moles solute
       | None => 0%Q
       end;
     get_salt := dominant;
     get_salt_list := salts;
     get_solute := fun name =>
       match dict_get comps name with
       | Some solute => solute
       | None => water
       end |}.

(** Water only: the decomposition holds the solvent pseudo-salt alone. *)
Definition pure_water : Solution :=
  mk_solution [("H2O", water)] 0 HOH [(HOH, 555 # 10)].

(** NaCl at 0.2 mol/kg with dissolved CO2. *)
Definition brine : Solution :=
  mk_solution
    [("H2O", water); ("Na+", mk_solute 1 (2 # 10) (-1 # 1000));
     ("Cl-", mk_solute (-1) (2 # 10) (17 # 1000)); ("CO2", mk_solute 0 (1 # 100) (34 # 1000))]
    (2 # 10) NaCl [(NaCl, 2 # 10); (HOH, 555 # 10)].

(** KCl, for which no Pitzer parameters are stored, at ionic strength [I]. *)
Definition potash (I : Q) : Solution :=
  mk_solution
    [("H2O", water); ("K+", mk_solute 1 I (9 # 1000)); ("Cl-", mk_solute (-1) I (17 # 1000))]
    I KCl [(KCl, I); (HOH, 555 # 10)].

(** NaCl and KCl at the same concentration: Cl- belongs to both salts. *)
Definition mixture : Solution :=
  mk_solution
    [("H2O", water); ("Na+", mk_solute 1 (1 # 2) (-1 # 1000)); ("K+", mk_solute 1 (1 # 2) (9 # 1000));
     ("Cl-", mk_solute (-1) 1 (17 # 1000))]
    1 NaCl [(NaCl, 1 # 2); (KCl, 1 # 2)].

(** MgSO4 and FeCl3, single salts. *)
Definition epsom : Solution :=
  mk_solution
    [("H2O", water); ("Mg+2", mk_solute 2 (1 # 10) 0); ("SO4-2", mk_solute (-2) (1 # 10) 0)]
    (4 # 10) MgSO4 [(MgSO4, 1 # 10)].

Definition ferric : Solution :=
  mk_solution
    [("H2O", water); ("Fe+3", mk_solute 3 (1 # 10) 0); ("Cl-", mk_solute (-1) (3 # 10) 0)]
    (6 # 10) FeCl3 [(FeCl3, 1 # 10)].

(** A database whose Pitzer activity tuples stop after two coefficients. *)
Definition truncated_db : db.t :=
  {| db.has_parameter := db.has_parameter test_db;
     db.get_parameter := fun name kind => {| db.get_value := [1 # 10; 2 # 10]%Q |} |}.

(** KCl and RbCl, neither with stored Pitzer parameters. *)
Definition RbCl : Salt := mk_salt "RbCl" "Rb+" "Cl-" 1 1 1 (-1).

Definition alkali : Solution :=
  mk_solution
    [("H2O", water); ("K+", mk_solute 1 (1 # 100) (9 # 1000));
     ("Rb+", mk_solute 1 (1 # 100) (14 # 1000)); ("Cl-", mk_solute (-1) (2 # 100) (17 # 1000))]
    (2 # 100) KCl [(KCl, 1 # 100); (RbCl, 1 # 100)].

(** NaCl listed at zero molality. *)
Definition trace_brine : Solution :=
  mk_solution
    [("H2O", water); ("Na+", mk_solute 1 0 (-1 # 1000)); ("Cl-", mk_solute (-1) 0 (17 # 1000))]
    0 NaCl [(NaCl, 0%Q); (HOH, 555 # 10)].

End Examples.

(** ** Properties of the engine *)

Section Properties.

Variable lib : ac.t.
Variable paramsDB : db.t.
Variable salts : salt_ion_match.t.

(** *** The monad *)

Lemma bind_Return {A B : Type} (a : A) (l : list log_record) (k : A -> M B) :
  bind (Return a, l) k = (fst (k a), l ++ snd (k a)).
Proof. unfold bind. destruct (k a); reflexivity. Qed.

Lemma bind_ret {A B : Type} (a : A) (k : A -> M B) : bind (ret a) k = k a.
Proof. unfold bind, ret. destruct (k a); reflexivity. Qed.

Lemma truediv_nonzero (x y : Q) : ~ (y == 0)%Q -> truediv x y = ret (x / y)%Q.
Proof.
  intros Hy. unfold truediv.
  destruct (Qeq_bool y 0) eqn:E; [|reflexivity].
  apply Qeq_bool_iff in E. contradiction.
Qed.

Lemma Qle_bool_false (x y : Q) : Qle_bool x y = false <-> (y < x)%Q.
Proof.
  split; intros H.
  - apply Qnot_le_lt. intros Hle. apply Qle_bool_iff in Hle. congruence.
  - destruct (Qle_bool x y) eqn:E; [|reflexivity].
    apply Qle_bool_iff in E. exfalso. exact (Qlt_not_le _ _ H E).
Qed.

(** *** The salt of a solute *)

Lemma find_salt_none_matching (solute : string) (l : list (Salt * Quantity)) (init : option Salt) :
  (forall entry, In entry l -> matches solute (fst entry) = false) ->
  fold_left (fun Salt item => if matches solute (fst item) then Some (fst item) else Salt) l init
  = init.
Proof.
  revert init. induction l as [|e l IH]; intros init H; simpl; [reflexivity|].
  rewrite (H e (or_introl eq_refl)). apply IH.
  intros entry Hin. apply H. now right.
Qed.

Lemma find_salt_last (solute : string) (before after : list (Salt * Quantity))
    (Salt : Salt) (c : Quantity) :
  matches solute Salt = true ->
  (forall entry, In entry after -> matches solute (fst entry) = false) ->
  find_salt solute (before ++ (Salt, c) :: after) = Some Salt.
Proof.
  intros Hm Hafter. unfold find_salt.
  rewrite fold_left_app. simpl. rewrite Hm.
  now apply find_salt_none_matching.
Qed.

(** C10.  A solute that is not a key of [solution.components] makes
    [get_activity_coefficient] raise [KeyError] at the component access:
    whatever the salt decomposition, the database and the correlation
    library are, nothing is logged and no fallback value is returned. *)
Theorem unknown_solute_raises_KeyError (solution : Solution) (solute : string) :
  dict_get (components solution) solute = None ->
  get_activity_coefficient lib paramsDB salts solution solute = (Raise (KeyError solute), []).
Proof.
  intros H. unfold get_activity_coefficient, getitem. rewrite H. reflexivity.
Qed.

(** C6, as the code has it.  For a solute that is a key of
    [solution.components] and that no salt of the decomposition has as its
    cation or anion, [get_activity_coefficient] logs one warning and returns
    exactly 1 (dimensionless), whatever the ionic strength. *)
Theorem no_matching_salt_unit_activity (solution : Solution) (solute : string) (ion : Solute.t) :
  dict_get (components solution) solute = Some ion ->
  (forall entry, In entry (salt_ion_match.generate_salt_list salts solution "mol/kg") ->
     matches solute (fst entry) = false) ->
  get_activity_coefficient lib paramsDB salts solution solute
  = (Return unit_1_dimensionless, [no_salts_found solute])
  /\ levelname (no_salts_found solute) = WARNING.
Proof.
  intros Hion Hnone. split; [|reflexivity].
  unfold get_activity_coefficient, getitem. rewrite Hion, bind_ret.
  unfold find_salt. rewrite (find_salt_none_matching _ _ None Hnone). reflexivity.
Qed.

(** C9.  When several salts of the decomposition have the solute as cation
    or anion, the salt the calculation uses is the last of them in
    decomposition order: the salts before it are overwritten by the loop. *)
Theorem last_matching_salt_is_used (solution : Solution) (solute : string) (ion : Solute.t)
    (before after : list (Salt * Quantity)) (Salt : Salt) (c : Quantity) :
  dict_get (components solution) solute = Some ion ->
  salt_ion_match.generate_salt_list salts solution "mol/kg" = before ++ (Salt, c) :: after ->
  matches solute Salt = true ->
  (forall entry, In entry after -> matches solute (fst entry) = false) ->
  find_salt solute (salt_ion_match.generate_salt_list salts solution "mol/kg") = Some Salt
  /\ get_activity_coefficient lib paramsDB salts solution solute
     = activity_coefficient_of_salt lib paramsDB salts solution solute ion Salt.
Proof.
  intros Hion Hlist Hm Hafter.
  assert (Hfind : find_salt solute (salt_ion_match.generate_salt_list salts solution "mol/kg")
                  = Some Salt).
  { rewrite Hlist. now apply find_salt_last. }
  split; [exact Hfind|].
  unfold get_activity_coefficient, getitem. rewrite Hion, bind_ret, Hfind. reflexivity.
Qed.

(** *** Model selection *)

Lemma activity_pitzer_branch (solution : Solution) (solute : string) (ion : Solute.t)
    (Salt : Salt) (p0 p1 p2 p3 : Q) (rest : list Q) :
  db.has_parameter paramsDB (formula Salt) "pitzer_parameters_activity" = true ->
  db.get_value (db.get_parameter paramsDB (formula Salt) "pitzer_parameters_activity")
  = p0 :: p1 :: p2 :: p3 :: rest ->
  let gamma :=
    ac.get_activity_coefficient_pitzer lib
      (ionic_strength solution)
      (salt_ion_match.get_effective_molality salts Salt (ionic_strength solution))
      (fst (activity_alphas Salt)) (snd (activity_alphas Salt)) p0 p1 p2 p3
      (z_cation Salt) (z_anion Salt) (nu_cation Salt) (nu_anion Salt)
      (temperature solution) in
  activity_coefficient_of_salt lib paramsDB salts solution solute ion Salt
  = (Return gamma, [pitzer_activity_calculated solute gamma Salt]).
Proof.
  intros Hhas Hval gamma. unfold activity_coefficient_of_salt.
  rewrite Hhas, Hval. reflexivity.
Qed.

(** With stored parameters every record the call logs is the Pitzer one,
    whatever the ionic strength. *)
Lemma activity_pitzer_priority (solution : Solution) (solute : string) (ion : Solute.t)
    (Salt : Salt) (r : log_record) :
  db.has_parameter paramsDB (formula Salt) "pitzer_parameters_activity" = true ->
  In r (snd (activity_coefficient_of_salt lib paramsDB salts solution solute ion Salt)) ->
  exists gamma, r = pitzer_activity_calculated solute gamma Salt.
Proof.
  intros Hhas. unfold activity_coefficient_of_salt. rewrite Hhas.
  destruct (db.get_value (db.get_parameter paramsDB (formula Salt) "pitzer_parameters_activity"))
    as [|p0 [|p1 [|p2 [|p3 rest]]]]; simpl; try tauto.
  intros [<-|[]]. eexists. reflexivity.
Qed.

(** C2.  Once the salt of the solute is known, the model is chosen in
    strict priority order: Pitzer whenever [pitzer_parameters_activity] are
    stored for the salt's formula; otherwise Debye-Hueckel for I <= 0.005,
    Guntelberg for 0.005 < I <= 0.1, Davies for 0.1 < I <= 0.5, and the
    unit fallback with its warning only for I > 0.5.  Each boundary belongs
    to the lower model. *)
Theorem model_selection_priority (solution : Solution) (solute : string) (ion : Solute.t)
    (Salt : Salt) :
  dict_get (components solution) solute = Some ion ->
  find_salt solute (salt_ion_match.generate_salt_list salts solution "mol/kg") = Some Salt ->
  let I := ionic_strength solution in
  let z := Solute.get_formal_charge ion in
  let T := temperature solution in
  let pitzer := db.has_parameter paramsDB (formula Salt) "pitzer_parameters_activity" in
  let result := get_activity_coefficient lib paramsDB salts solution solute in
  (pitzer = true ->
     (forall r, In r (snd result) -> exists gamma, r = pitzer_activity_calculated solute gamma Salt)
     /\ forall p0 p1 p2 p3 rest,
          db.get_value (db.get_parameter paramsDB (formula Salt) "pitzer_parameters_activity")
          = p0 :: p1 :: p2 :: p3 :: rest ->
          let gamma :=
            ac.get_activity_coefficient_pitzer lib I
              (salt_ion_match.get_effective_molality salts Salt I)
              (fst (activity_alphas Salt)) (snd (activity_alphas Salt)) p0 p1 p2 p3
              (z_cation Salt) (z_anion Salt) (nu_cation Salt) (nu_anion Salt) T in
          result = (Return gamma, [pitzer_activity_calculated solute gamma Salt]))
  /\ (pitzer = false -> (I <= 5 # 1000)%Q ->
        result = (Return (ac.get_activity_coefficient_debyehuckel lib I z T),
                  [using_debyehuckel I]))
  /\ (pitzer = false -> (5 # 1000 < I)%Q -> (I <= 1 # 10)%Q ->
        result = (Return (ac.get_activity_coefficient_guntelberg lib I z T),
                  [using_guntelberg I]))
  /\ (pitzer = false -> (1 # 10 < I)%Q -> (I <= 5 # 10)%Q ->
        result = (Return (ac.get_activity_coefficient_davies lib I z T),
                  [using_davies I]))
  /\ (pitzer = false -> (5 # 10 < I)%Q ->
        result = (Return unit_1_dimensionless, [ionic_strength_too_high solute]))
  /\ (In (ionic_strength_too_high solute) (snd result) -> pitzer = false /\ (5 # 10 < I)%Q).
Proof.
  intros Hion Hfind I z T pitzer result.
  assert (Hres : result = activity_coefficient_of_salt lib paramsDB salts solution solute ion Salt).
  { unfold result, get_activity_coefficient, getitem. rewrite Hion, bind_ret, Hfind. reflexivity. }
  assert (Hfallback : pitzer = false ->
            result =
            if Qle_bool I (5 # 1000) then
              (Return (ac.get_activity_coefficient_debyehuckel lib I z T), [using_debyehuckel I])
            else if Qle_bool I (1 # 10) then
              (Return (ac.get_activity_coefficient_guntelberg lib I z T), [using_guntelberg I])
            else if Qle_bool I (5 # 10) then
              (Return (ac.get_activity_coefficient_davies lib I z T), [using_davies I])
            else (Return unit_1_dimensionless, [ionic_strength_too_high solute])).
  { intros Hp. rewrite Hres. unfold activity_coefficient_of_salt.
    fold pitzer. rewrite Hp. fold I.
    destruct (Qle_bool I (5 # 1000)); [reflexivity|].
    destruct (Qle_bool I (1 # 10)); [reflexivity|].
    destruct (Qle_bool I (5 # 10)); reflexivity. }
  repeat split.
  - intros r Hr. rewrite Hres in Hr. eapply activity_pitzer_priority; eauto.
  - intros p0 p1 p2 p3 rest Hval gamma. rewrite Hres.
    now apply activity_pitzer_branch with (rest := rest).
  - intros Hp H1. rewrite (Hfallback Hp).
    apply Qle_bool_iff in H1. now rewrite H1.
  - intros Hp H1 H2. rewrite (Hfallback Hp).
    apply Qle_bool_false in H1. apply Qle_bool_iff in H2. now rewrite H1, H2.
  - intros Hp H1 H2. rewrite (Hfallback Hp).
    assert (H0 : (5 # 1000 < I)%Q) by (eapply Qlt_trans; [|exact H1]; reflexivity).
    apply Qle_bool_false in H0, H1. apply Qle_bool_iff in H2. now rewrite H0, H1, H2.
  - intros Hp H2. rewrite (Hfallback Hp).
    assert (H1 : (1 # 10 < I)%Q) by (eapply Qlt_trans; [|exact H2]; reflexivity).
    assert (H0 : (5 # 1000 < I)%Q) by (eapply Qlt_trans; [|exact H1]; reflexivity).
    apply Qle_bool_false in H0, H1, H2. now rewrite H0, H1, H2.
  - destruct pitzer eqn:Hp; [|reflexivity].
    rewrite Hres in H.
    destruct (activity_pitzer_priority solution solute ion Salt _ Hp H) as [gamma Hg].
    discriminate.
  - destruct pitzer eqn:Hp.
    + rewrite Hres in H.
      destruct (activity_pitzer_priority solution solute ion Salt _ Hp H) as [gamma Hg].
      discriminate.
    + rewrite (Hfallback eq_refl) in H.
      destruct (Qle_bool I (5 # 1000)); [simpl in H; destruct H as [H|[]]; discriminate|].
      destruct (Qle_bool I (1 # 10)); [simpl in H; destruct H as [H|[]]; discriminate|].
      destruct (Qle_bool I (5 # 10)) eqn:E; [simpl in H; destruct H as [H|[]]; discriminate|].
      now apply Qle_bool_false.
Qed.

(** *** The osmotic aggregation *)

Lemma osmotic_body_solvent (solution : Solution) (acc : Q * Q) (entry : Salt * Quantity) :
  is_solvent entry = true ->
  osmotic_loop_body lib paramsDB solution acc entry = ret acc.
Proof.
  unfold is_solvent, osmotic_loop_body. intros H. now rewrite H.
Qed.

Lemma osmotic_body_pitzer (solution : Solution) (acc : Q * Q) (item : Salt) (c : Quantity)
    (p0 p1 p2 p3 : Q) (rest : list Q) :
  formula item <> "HOH" ->
  db.has_parameter paramsDB (formula item) "pitzer_parameters_activity" = true ->
  db.get_value (db.get_parameter paramsDB (formula item) "pitzer_parameters_activity")
  = p0 :: p1 :: p2 :: p3 :: rest ->
  let phi :=
    ac.get_osmotic_coefficient_pitzer lib (ionic_strength solution) c
      (fst (osmotic_alphas item)) (snd (osmotic_alphas item)) p0 p1 p2 p3
      (z_cation item) (z_anion item) (nu_cation item) (nu_anion item)
      (temperature solution) in
  osmotic_loop_body lib paramsDB solution acc (item, c)
  = (Return ((fst acc + c * phi)%Q, (snd acc + c)%Q),
     [pitzer_osmotic_calculated phi (formula item)]).
Proof.
  intros Hf Hhas Hval phi. unfold osmotic_loop_body. simpl fst. simpl snd.
  apply String.eqb_neq in Hf. rewrite Hf, Hhas, Hval. reflexivity.
Qed.

Lemma osmotic_body_step (solution : Solution) (acc : Q * Q) (entry : Salt * Quantity) :
  is_solvent entry = false ->
  (db.has_parameter paramsDB (formula (fst entry)) "pitzer_parameters_activity" = true ->
   (4 <= List.length (db.get_value
           (db.get_parameter paramsDB (formula (fst entry)) "pitzer_parameters_activity")))%nat) ->
  osmotic_loop_body lib paramsDB solution acc entry
  = (Return ((fst acc + snd entry * salt_osmotic_coefficient lib paramsDB solution entry)%Q,
             (snd acc + snd entry)%Q),
     [if db.has_parameter paramsDB (formula (fst entry)) "pitzer_parameters_activity"
      then pitzer_osmotic_calculated (salt_osmotic_coefficient lib paramsDB solution entry)
             (formula (fst entry))
      else no_pitzer_osmotic_parameters (formula (fst entry))]).
Proof.
  intros Hs Hlen. destruct entry as [item c]. unfold is_solvent in Hs. simpl in *.
  unfold salt_osmotic_coefficient. simpl fst. simpl snd.
  destruct (db.has_parameter paramsDB (formula item) "pitzer_parameters_activity") eqn:Hhas.
  - specialize (Hlen eq_refl).
    destruct (db.get_value (db.get_parameter paramsDB (formula item) "pitzer_parameters_activity"))
      as [|p0 [|p1 [|p2 [|p3 rest]]]] eqn:Hval; simpl in Hlen; try lia.
    apply String.eqb_neq in Hs.
    rewrite (osmotic_body_pitzer solution acc item c p0 p1 p2 p3 rest Hs Hhas Hval).
    reflexivity.
  - unfold osmotic_loop_body. simpl fst. simpl snd. rewrite Hs, Hhas. reflexivity.
Qed.

(** The loop, from any pair of running sums. *)
Lemma osmotic_loop_sums (solution : Solution) (l : list (Salt * Quantity)) :
  (forall entry, In entry l -> is_solvent entry = false ->
     db.has_parameter paramsDB (formula (fst entry)) "pitzer_parameters_activity" = true ->
     (4 <= List.length (db.get_value
             (db.get_parameter paramsDB (formula (fst entry)) "pitzer_parameters_activity")))%nat) ->
  forall acc : Q * Q,
  exists sums : Q * Q,
    for_each (osmotic_loop_body lib paramsDB solution) acc l
    = (Return sums,
       map (fun entry =>
              if db.has_parameter paramsDB (formula (fst entry)) "pitzer_parameters_activity"
              then pitzer_osmotic_calculated (salt_osmotic_coefficient lib paramsDB solution entry)
                     (formula (fst entry))
              else no_pitzer_osmotic_parameters (formula (fst entry)))
           (filter (fun entry => negb (is_solvent entry)) l))
    /\ (fst sums ==
        fst acc + Qsum (map (fun entry =>
                               (snd entry * salt_osmotic_coefficient lib paramsDB solution entry)%Q)
                            (filter (fun entry => negb (is_solvent entry)) l)))%Q
    /\ (snd sums == snd acc + Qsum (map snd (filter (fun entry => negb (is_solvent entry)) l)))%Q.
Proof.
  induction l as [|entry l IH]; intros Hlen acc.
  - exists acc. simpl. split; [reflexivity|]. split; ring.
  - assert (Hl : forall e, In e l -> is_solvent e = false ->
              db.has_parameter paramsDB (formula (fst e)) "pitzer_parameters_activity" = true ->
              (4 <= List.length (db.get_value
                 (db.get_parameter paramsDB (formula (fst e)) "pitzer_parameters_activity")))%nat).
    { intros e He. apply Hlen. now right. }
    simpl for_each. simpl filter.
    destruct (is_solvent entry) eqn:Hs; simpl negb; cbv iota.
    + rewrite (osmotic_body_solvent solution acc entry Hs), bind_ret.
      exact (IH Hl acc).
    + rewrite (osmotic_body_step solution acc entry Hs (Hlen entry (or_introl eq_refl) Hs)).
      rewrite bind_Return.
      destruct (IH Hl ((fst acc + snd entry * salt_osmotic_coefficient lib paramsDB solution entry)%Q,
                       (snd acc + snd entry)%Q)) as [sums [Hrun [Hsum Hweight]]].
      exists sums. rewrite Hrun. simpl fst in *. simpl snd in *.
      split; [reflexivity|]. split.
      * rewrite Hsum. simpl. ring.
      * rewrite Hweight. simpl. ring.
Qed.


(** C5.  When the decomposition holds no salt other than HOH, both running
    sums are still 0 after the loop and the final division is 0 / 0 with no
    guard before it: the call ends in the division's own
    [ZeroDivisionError], not in a value and not in the [ValueError] the
    interface documents, and nothing has been logged. *)
Theorem solvent_only_divides_by_zero (solution : Solution) :
  (forall entry, In entry (get_salt_list solution) -> formula (fst entry) = "HOH") ->
  for_each (osmotic_loop_body lib paramsDB solution) (0%Q, 0%Q) (get_salt_list solution)
  = (Return (0%Q, 0%Q), [])
  /\ get_osmotic_coefficient lib paramsDB solution = truediv 0 0
  /\ get_osmotic_coefficient lib paramsDB solution = (Raise ZeroDivisionError, [])
  /\ (forall phi, fst (get_osmotic_coefficient lib paramsDB solution) <> Return phi)
  /\ fst (get_osmotic_coefficient lib paramsDB solution) <> Raise ValueError.
Proof.
  intros Hall.
  assert (Hloop : forall l acc, (forall entry, In entry l -> formula (fst entry) = "HOH") ->
            for_each (osmotic_loop_body lib paramsDB solution) acc l = (Return acc, [])).
  { induction l as [|entry l IH]; intros acc Hl; [reflexivity|].
    simpl. rewrite osmotic_body_solvent, bind_ret.
    - apply IH. intros e He. apply Hl. now right.
    - unfold is_solvent. rewrite (Hl entry (or_introl eq_refl)). reflexivity. }
  assert (Hrun : get_osmotic_coefficient lib paramsDB solution = (Raise ZeroDivisionError, [])).
  { unfold get_osmotic_coefficient. now rewrite (Hloop _ _ Hall). }
  repeat split.
  - now apply Hloop.
  - now rewrite Hrun.
  - exact Hrun.
  - intros phi. now rewrite Hrun.
  - now rewrite Hrun.
Qed.

(** C1, as the code has it.  The alpha pair that [get_osmotic_coefficient]
    passes to the Pitzer call of a salt follows one charge-based table:
    with z_cation >= 2 and z_anion <= -2 it is (2, 50) when z_cation >= 3 or
    z_anion <= -3 and (1.4, 12) in the remaining 2:2 case; with any other
    charges, a 3:1 or 1:3 salt among them, it is (2, 0). *)
Theorem osmotic_alpha_table (solution : Solution) (acc : Q * Q) (item : Salt) (c : Quantity)
    (p0 p1 p2 p3 : Q) (rest : list Q) :
  formula item <> "HOH" ->
  db.has_parameter paramsDB (formula item) "pitzer_parameters_activity" = true ->
  db.get_value (db.get_parameter paramsDB (formula item) "pitzer_parameters_activity")
  = p0 :: p1 :: p2 :: p3 :: rest ->
  exists alpha1 alpha2 : Q,
    let phi :=
      ac.get_osmotic_coefficient_pitzer lib (ionic_strength solution) c
        alpha1 alpha2 p0 p1 p2 p3
        (z_cation item) (z_anion item) (nu_cation item) (nu_anion item)
        (temperature solution) in
    osmotic_loop_body lib paramsDB solution acc (item, c)
    = (Return ((fst acc + c * phi)%Q, (snd acc + c)%Q),
       [pitzer_osmotic_calculated phi (formula item)])
    /\ ((z_cation item = 2 /\ z_anion item = -2)%Z ->
          alpha1 = (14 # 10)%Q /\ alpha2 = 12%Q)
    /\ ((2 <= z_cation item /\ z_anion item <= -2
         /\ (3 <= z_cation item \/ z_anion item <= -3))%Z ->
          alpha1 = 2%Q /\ alpha2 = 50%Q)
    /\ ((z_cation item < 2 \/ -2 < z_anion item)%Z ->
          alpha1 = 2%Q /\ alpha2 = 0%Q).
Proof.
  intros Hf Hhas Hval.
  exists (fst (osmotic_alphas item)), (snd (osmotic_alphas item)).
  split; [now apply osmotic_body_pitzer with (rest := rest)|].
  unfold osmotic_alphas. split; [|split].
  - intros [-> ->]. split; reflexivity.
  - intros [H1 [H2 H3]].
    assert (E1 : (z_cation item >=? 2)%Z = true) by (apply Z.geb_le; lia).
    assert (E2 : (z_anion item <=? -2)%Z = true) by (apply Z.leb_le; lia).
    assert (E3 : ((z_cation item >=? 3)%Z || (z_anion item <=? -3)%Z) = true)
      by (apply orb_true_iff; rewrite Z.geb_le, Z.leb_le; lia).
    rewrite E1, E2, E3. split; reflexivity.
  - intros H.
    assert (E : ((z_cation item >=? 2)%Z && (z_anion item <=? -2)%Z) = false)
      by (apply andb_false_iff; rewrite Z.geb_leb, !Z.leb_gt; lia).
    rewrite E. split; reflexivity.
Qed.

(** *** The solute volume *)

Lemma inject_Z_nonzero (n : Z) : n <> 0%Z -> ~ (inject_Z n == 0)%Q.
Proof.
  intros Hn H. apply Hn.
  apply (proj1 (inject_Z_injective n 0)). exact H.
Qed.

Lemma volume_body_skipped (solution : Solution) (pitzer_calc : bool)
    (solute_vol : Quantity) (entry : string * Solute.t) :
  skipped solution pitzer_calc (fst entry) = true ->
  volume_loop_body paramsDB solution (get_salt solution) pitzer_calc solute_vol entry
  = ret solute_vol.
Proof.
  unfold skipped, volume_loop_body. intros H.
  destruct (str_in (fst entry) ["H2O"; "HOH"]); [reflexivity|].
  rewrite orb_false_l in H. now rewrite H.
Qed.

Lemma volume_body_counted (solution : Solution) (pitzer_calc : bool)
    (solute_vol : Quantity) (entry : string * Solute.t) :
  skipped solution pitzer_calc (fst entry) = false ->
  volume_loop_body paramsDB solution (get_salt solution) pitzer_calc solute_vol entry
  = (Return (solute_vol + volume_contribution paramsDB solution (fst entry))%Q,
     [if db.has_parameter paramsDB (fst entry) "partial_molar_volume"
      then partial_molar_volume_updated (fst entry)
      else no_partial_molar_volume (fst entry)])
  \/ (db.has_parameter paramsDB (fst entry) "partial_molar_volume" = false
      /\ volume_loop_body paramsDB solution (get_salt solution) pitzer_calc solute_vol entry
         = (Return solute_vol, [no_partial_molar_volume (fst entry)])).
Proof.
  unfold skipped, volume_loop_body, volume_contribution. intros H.
  apply orb_false_iff in H. destruct H as [H1 H2]. rewrite H1, H2.
  destruct (db.has_parameter paramsDB (fst entry) "partial_molar_volume").
  - left. reflexivity.
  - right. split; reflexivity.
Qed.

(** The loop over the components returns from any starting volume: a
    missing partial molar volume is logged, never raised. *)
Lemma volume_loop_total (solution : Solution) (pitzer_calc : bool)
    (l : list (string * Solute.t)) :
  forall start : Quantity,
  exists v : Quantity,
    for_each (volume_loop_body paramsDB solution (get_salt solution) pitzer_calc) start l
    = (Return v,
       map (fun item =>
              if db.has_parameter paramsDB item "partial_molar_volume"
              then partial_molar_volume_updated item
              else no_partial_molar_volume item)
           (filter (fun item => negb (skipped solution pitzer_calc item)) (map fst l)))
    /\ (v == start
             + Qsum (map (volume_contribution paramsDB solution)
                       (filter (fun item => negb (skipped solution pitzer_calc item))
                               (map fst l))))%Q.
Proof.
  induction l as [|entry l IH]; intros start.
  - exists start. split; [reflexivity|]. simpl. ring.
  - cbn [for_each map filter].
    destruct (skipped solution pitzer_calc (fst entry)) eqn:Hskip; cbn [negb map].
    + rewrite (volume_body_skipped _ _ _ _ Hskip), bind_ret. exact (IH start).
    + destruct (volume_body_counted solution pitzer_calc start entry Hskip)
        as [Hbody|[Hhas Hbody]]; rewrite Hbody, bind_Return.
      * destruct (IH (start + volume_contribution paramsDB solution (fst entry))%Q)
          as [v [Hrun Hv]].
        exists v. rewrite Hrun. split; [reflexivity|].
        rewrite Hv. cbn [map Qsum fold_right fst snd]. unfold Qsum. ring.
      * destruct (IH start) as [v [Hrun Hv]].
        exists v. rewrite Hrun, Hhas. split; [reflexivity|].
        rewrite Hv. cbn [map Qsum fold_right]. unfold volume_contribution at 2.
        rewrite Hhas. unfold Qsum. ring.
Qed.

Lemma solute_volume_after_pitzer (solution : Solution) (start : Quantity * bool)
    (l0 : list log_record) :
  pitzer_volume lib paramsDB solution (get_salt solution) = (Return start, l0) ->
  exists v : Quantity,
    get_solute_volume lib paramsDB solution
    = (Return (to v "L"), l0 ++ volume_log paramsDB solution (snd start))
    /\ (v == fst start + partial_molar_total paramsDB solution (snd start))%Q.
Proof.
  intros Hstart.
  destruct (volume_loop_total solution (snd start) (components solution) (fst start))
    as [v [Hrun Hv]].
  exists v. split; [|exact Hv].
  unfold get_solute_volume. rewrite Hstart, bind_Return, Hrun, bind_Return.
  simpl. rewrite app_nil_r. reflexivity.
Qed.

Lemma pitzer_volume_absent (solution : Solution) :
  db.has_parameter paramsDB (formula (get_salt solution)) "pitzer_parameters_volume" = false ->
  pitzer_volume lib paramsDB solution (get_salt solution) = (Return (unit_0_L, false), []).
Proof.
  intros H. unfold pitzer_volume. now rewrite H.
Qed.

(** C8.  [get_solute_volume] does not raise on missing data.  Once the
    Pitzer part has returned (it returns 0 L straight away when no Pitzer
    volume parameters are stored), every solute other than water and, when
    Pitzer was used, the two ions of the dominant salt adds
    [partial_molar_volume * moles] when a partial molar volume is stored and
    nothing but a logged warning when it is not; the total comes back in
    litres: the value returned is the sum itself, which the final
    conversion to L leaves as it is. *)
Theorem solute_volume_tolerates_missing_data (solution : Solution) :
  (forall start l0,
     pitzer_volume lib paramsDB solution (get_salt solution) = (Return start, l0) ->
     exists v : Quantity,
       get_solute_volume lib paramsDB solution
       = (Return v, l0 ++ volume_log paramsDB solution (snd start))
       /\ (v == fst start + partial_molar_total paramsDB solution (snd start))%Q
       /\ to v "L" = v)
  /\ (db.has_parameter paramsDB (formula (get_salt solution)) "pitzer_parameters_volume" = false ->
      exists v : Quantity,
        get_solute_volume lib paramsDB solution
        = (Return v, volume_log paramsDB solution false)
        /\ (v == partial_molar_total paramsDB solution false)%Q
        /\ to v "L" = v)
  /\ (forall pitzer_calc item,
        In item (counted_solutes solution pitzer_calc) ->
        (db.has_parameter paramsDB item "partial_molar_volume" = true ->
           volume_contribution paramsDB solution item
           = (Solute.get_parameter (get_solute solution item) "partial_molar_volume"
              * Solute.get_moles (get_solute solution item))%Q
           /\ In (partial_molar_volume_updated item) (volume_log paramsDB solution pitzer_calc))
        /\ (db.has_parameter paramsDB item "partial_molar_volume" = false ->
              volume_contribution paramsDB solution item = 0%Q
              /\ In (no_partial_molar_volume item) (volume_log paramsDB solution pitzer_calc)
              /\ levelname (no_partial_molar_volume item) = WARNING)).
Proof.
  split; [|split].
  - intros start l0 Hstart.
    destruct (solute_volume_after_pitzer solution start l0 Hstart) as [v [Hrun Hv]].
    unfold to in Hrun.
    exists v. split; [exact Hrun|]. split; [exact Hv|reflexivity].
  - intros Habsent.
    destruct (solute_volume_after_pitzer solution _ _ (pitzer_volume_absent solution Habsent))
      as [v [Hrun Hv]].
    unfold to in Hrun.
    exists v. split; [exact Hrun|]. split; [|reflexivity].
    rewrite Hv. unfold unit_0_L. simpl. ring.
  - intros pitzer_calc item Hin. split; intros Hhas.
    + split; [unfold volume_contribution; now rewrite Hhas|].
      unfold volume_log. apply in_map_iff. exists item. now rewrite Hhas.
    + split; [unfold volume_contribution; now rewrite Hhas|]. split; [|reflexivity].
      unfold volume_log. apply in_map_iff. exists item. now rewrite Hhas.
Qed.

(** C7.  With Pitzer volume parameters stored for the dominant salt, the
    molality handed to the apparent-volume call is the plain mean of the
    molalities of the cation and of the anion; alpha1 and alpha2 come from
    a table on the two stoichiometric coefficients, both tested as >= 2; and
    the apparent volume is scaled by the mean of the two mole counts, each
    divided by its stoichiometric coefficient. *)
Theorem pitzer_volume_of_dominant_salt (solution : Solution)
    (p0 p1 p2 p3 p4 : Q) (rest : list Q) :
  let Salt := get_salt solution in
  db.has_parameter paramsDB (formula Salt) "pitzer_parameters_volume" = true ->
  db.get_value (db.get_parameter paramsDB (formula Salt) "pitzer_parameters_volume")
  = p0 :: p1 :: p2 :: p3 :: p4 :: rest ->
  nu_cation Salt <> 0%Z ->
  nu_anion Salt <> 0%Z ->
  exists alpha1 alpha2 : Q,
    let molality :=
      ((get_amount solution (cation Salt) "mol/kg"
        + get_amount solution (anion Salt) "mol/kg") / 2)%Q in
    let apparent_vol :=
      ac.get_apparent_volume_pitzer lib (ionic_strength solution) molality
        alpha1 alpha2 p0 p1 p2 p3 p4
        (z_cation Salt) (z_anion Salt) (nu_cation Salt) (nu_anion Salt)
        (temperature solution) in
    let mean_moles :=
      ((get_amount solution (cation Salt) "mol" / inject_Z (nu_cation Salt)
        + get_amount solution (anion Salt) "mol" / inject_Z (nu_anion Salt)) / 2)%Q in
    (exists v0 : Quantity,
       pitzer_volume lib paramsDB solution Salt
       = (Return (v0, true), [pitzer_volume_updated (formula Salt)])
       /\ (v0 == apparent_vol * mean_moles)%Q)
    /\ (exists v : Quantity,
          get_solute_volume lib paramsDB solution
          = (Return (to v "L"),
             pitzer_volume_updated (formula Salt) :: volume_log paramsDB solution true)
          /\ (v == apparent_vol * mean_moles + partial_molar_total paramsDB solution true)%Q)
    /\ ((2 <= nu_cation Salt /\ 2 <= nu_anion Salt
         /\ (3 <= nu_cation Salt \/ 3 <= nu_anion Salt))%Z ->
          alpha1 = 2%Q /\ alpha2 = 50%Q)
    /\ ((nu_cation Salt = 2 /\ nu_anion Salt = 2)%Z ->
          alpha1 = (14 # 10)%Q /\ alpha2 = 12%Q)
    /\ ((nu_cation Salt < 2 \/ nu_anion Salt < 2)%Z ->
          alpha1 = 2%Q /\ alpha2 = 0%Q).
Proof.
  intros Salt Hhas Hval Hc Ha.
  exists (fst (volume_alphas Salt)), (snd (volume_alphas Salt)).
  intros molality apparent_vol mean_moles.
  assert (Hrun : pitzer_volume lib paramsDB solution Salt
                 = (Return ((unit_0_L + apparent_vol
                              * (get_amount solution (cation Salt) "mol" / inject_Z (nu_cation Salt)
                                 + get_amount solution (anion Salt) "mol" / inject_Z (nu_anion Salt))
                              / 2)%Q, true),
                    [pitzer_volume_updated (formula Salt)])).
  { unfold pitzer_volume. rewrite Hhas, Hval.
    unfold subscript. simpl nth_error. cbv iota. rewrite !bind_ret.
    rewrite (truediv_nonzero _ _ (inject_Z_nonzero _ Hc)), bind_ret.
    rewrite (truediv_nonzero _ _ (inject_Z_nonzero _ Ha)), bind_ret.
    reflexivity. }
  assert (Hscale : (unit_0_L + apparent_vol
                     * (get_amount solution (cation Salt) "mol" / inject_Z (nu_cation Salt)
                        + get_amount solution (anion Salt) "mol" / inject_Z (nu_anion Salt))
                     / 2 == apparent_vol * mean_moles)%Q).
  { unfold mean_moles, unit_0_L. field.
    split; apply inject_Z_nonzero; assumption. }
  split; [|split; [|split; [|split]]].
  - eexists. split; [exact Hrun|exact Hscale].
  - destruct (solute_volume_after_pitzer solution _ _ Hrun) as [v [Hv1 Hv2]].
    exists v. split; [exact Hv1|]. rewrite Hv2. simpl fst. simpl snd. now rewrite Hscale.
  - intros [H1 [H2 H3]]. unfold volume_alphas.
    assert (E1 : (nu_cation Salt >=? 2)%Z = true) by (apply Z.geb_le; lia).
    assert (E2 : (nu_anion Salt >=? 2)%Z = true) by (apply Z.geb_le; lia).
    assert (E3 : ((nu_cation Salt >=? 3)%Z || (nu_anion Salt >=? 3)%Z) = true)
      by (apply orb_true_iff; rewrite !Z.geb_le; lia).
    rewrite E1, E2, E3. split; reflexivity.
  - intros [H1 H2]. unfold volume_alphas. rewrite H1, H2. split; reflexivity.
  - intros H. unfold volume_alphas.
    assert (E : ((nu_cation Salt >=? 2)%Z && (nu_anion Salt >=? 2)%Z) = false)
      by (apply andb_false_iff; rewrite !Z.geb_leb, !Z.leb_gt; lia).
    rewrite E. split; reflexivity.
Qed.

(** *** Equilibration *)

(** C4, as the code has it.  [NativeEOS.equilibrate] is a placeholder whose
    body is its docstring: for every solution it returns [None], raises
    nothing and leaves the solution unchanged, exactly as
    [IdealEOS.equilibrate] does. *)
Theorem equilibrate_is_silent_no_op (solution : Solution) :
  equilibrate solution = (Return tt, solution)
  /\ equilibrate solution = IdealEOS.equilibrate solution
  /\ forall e : exn, fst (equilibrate solution) <> Raise e.
Proof.
  repeat split. intros e. discriminate.
Qed.

End Properties.

(** ** The engine on the concrete solutions *)

Import Examples.

(** Ca+2 is not a component of the brine. *)
Lemma unknown_solute_raises_KeyError_witness :
  dict_get (components brine) "Ca+2" = None
  /\ get_activity_coefficient test_ac test_db test_salts brine "Ca+2"
     = (Raise (KeyError "Ca+2"), []).
Proof.
  split; [reflexivity|].
  apply unknown_solute_raises_KeyError. reflexivity.
Defined.

(** No salt of the brine contains Ca+2, and yet the call does not return 1:
    it raises before the salts are looked at. *)
Lemma unit_activity_counterexample :
  (forall entry, In entry (salt_ion_match.generate_salt_list test_salts brine "mol/kg") ->
     matches "Ca+2" (fst entry) = false)
  /\ get_activity_coefficient test_ac test_db test_salts brine "Ca+2"
     = (Raise (KeyError "Ca+2"), [])
  /\ get_activity_coefficient test_ac test_db test_salts brine "Ca+2"
     <> (Return unit_1_dimensionless, [no_salts_found "Ca+2"]).
Proof.
  split; [|split].
  - intros entry [<-|[<-|[]]]; reflexivity.
  - reflexivity.
  - discriminate.
Qed.

(** Dissolved CO2 is a component of the brine and belongs to no salt. *)
Lemma no_matching_salt_unit_activity_witness :
  dict_get (components brine) "CO2" = Some (mk_solute 0 (1 # 100) (34 # 1000))
  /\ (forall entry, In entry (salt_ion_match.generate_salt_list test_salts brine "mol/kg") ->
        matches "CO2" (fst entry) = false)
  /\ get_activity_coefficient test_ac test_db test_salts brine "CO2"
     = (Return 1%Q, [no_salts_found "CO2"]).
Proof.
  assert (H1 : dict_get (components brine) "CO2" = Some (mk_solute 0 (1 # 100) (34 # 1000)))
    by reflexivity.
  assert (H2 : forall entry,
             In entry (salt_ion_match.generate_salt_list test_salts brine "mol/kg") ->
             matches "CO2" (fst entry) = false).
  { intros entry [<-|[<-|[]]]; reflexivity. }
  split; [exact H1|]. split; [exact H2|].
  exact (proj1 (no_matching_salt_unit_activity test_ac test_db test_salts brine "CO2" _ H1 H2)).
Defined.

(** Cl- belongs to NaCl and to KCl; KCl comes last and is the salt used, so
    the stored Pitzer parameters of NaCl play no part. *)
Lemma last_matching_salt_is_used_witness :
  matches "Cl-" NaCl = true
  /\ matches "Cl-" KCl = true
  /\ find_salt "Cl-" (salt_ion_match.generate_salt_list test_salts mixture "mol/kg") = Some KCl
  /\ get_activity_coefficient test_ac test_db test_salts mixture "Cl-"
     = activity_coefficient_of_salt test_ac test_db test_salts mixture "Cl-"
         (mk_solute (-1) 1 (17 # 1000)) KCl
  /\ activity_coefficient_of_salt test_ac test_db test_salts mixture "Cl-"
       (mk_solute (-1) 1 (17 # 1000)) KCl
     = (Return 1%Q, [ionic_strength_too_high "Cl-"]).
Proof.
  split; [reflexivity|]. split; [reflexivity|].
  assert (H : find_salt "Cl-" (salt_ion_match.generate_salt_list test_salts mixture "mol/kg")
              = Some KCl
              /\ get_activity_coefficient test_ac test_db test_salts mixture "Cl-"
                 = activity_coefficient_of_salt test_ac test_db test_salts mixture "Cl-"
                     (mk_solute (-1) 1 (17 # 1000)) KCl).
  { apply (last_matching_salt_is_used test_ac test_db test_salts mixture "Cl-"
             (mk_solute (-1) 1 (17 # 1000)) [(NaCl, 1 # 2)] [] KCl (1 # 2)).
    - reflexivity.
    - reflexivity.
    - reflexivity.
    - intros entry []. }
  destruct H as [H1 H2]. split; [exact H1|]. split; [exact H2|]. reflexivity.
Defined.

(** KCl has no stored Pitzer parameters: at I = 0.005, 0.1 and 0.5 exactly
    the lower model is the one used, and above 0.5 the unit fallback. *)
Lemma model_selection_priority_witness :
  get_activity_coefficient test_ac test_db test_salts (potash (5 # 1000)) "K+"
  = (Return (ac.get_activity_coefficient_debyehuckel test_ac (5 # 1000) 1 "25 degC"),
     [using_debyehuckel (5 # 1000)])
  /\ get_activity_coefficient test_ac test_db test_salts (potash (1 # 10)) "K+"
     = (Return (ac.get_activity_coefficient_guntelberg test_ac (1 # 10) 1 "25 degC"),
        [using_guntelberg (1 # 10)])
  /\ get_activity_coefficient test_ac test_db test_salts (potash (5 # 10)) "K+"
     = (Return (ac.get_activity_coefficient_davies test_ac (5 # 10) 1 "25 degC"),
        [using_davies (5 # 10)])
  /\ get_activity_coefficient test_ac test_db test_salts (potash (6 # 10)) "K+"
     = (Return 1%Q, [ionic_strength_too_high "K+"]).
Proof.
  pose proof (fun I =>
    model_selection_priority test_ac test_db test_salts (potash I) "K+"
      (mk_solute 1 I (9 # 1000)) KCl eq_refl eq_refl) as H.
  split; [|split; [|split]].
  - destruct (H (5 # 1000)%Q) as [_ [Hdh _]].
    apply Hdh; [reflexivity|]. unfold Qle. simpl. lia.
  - destruct (H (1 # 10)%Q) as [_ [_ [Hg _]]].
    apply Hg; [reflexivity| |]; unfold Qlt, Qle; simpl; lia.
  - destruct (H (5 # 10)%Q) as [_ [_ [_ [Hd _]]]].
    apply Hd; [reflexivity| |]; unfold Qlt, Qle; simpl; lia.
  - destruct (H (6 # 10)%Q) as [_ [_ [_ [_ [Hhigh _]]]]].
    apply Hhigh; [reflexivity|]. unfold Qlt. simpl. lia.
Defined.


(** Pure water: the decomposition is the pseudo-salt HOH alone. *)
Lemma solvent_only_divides_by_zero_witness :
  (forall entry, In entry (get_salt_list pure_water) -> formula (fst entry) = "HOH")
  /\ get_osmotic_coefficient test_ac test_db pure_water = (Raise ZeroDivisionError, []).
Proof.
  assert (H : forall entry, In entry (get_salt_list pure_water) -> formula (fst entry) = "HOH").
  { intros entry [<-|[]]. reflexivity. }
  split; [exact H|].
  exact (proj1 (proj2 (proj2 (solvent_only_divides_by_zero test_ac test_db pure_water H)))).
Defined.

(** A 3:1 salt gets (2, 0) in the osmotic call, where the table of the
    specification's test property gives (2, 50); and for the 2:2 salt MgSO4
    the activity call, which tests the stoichiometric coefficients, gets
    (2, 0) where the osmotic call gets (1.4, 12). *)
Lemma alpha_table_counterexample :
  osmotic_alphas FeCl3 = (2, 0)%Q
  /\ alpha_table_by_charge_type FeCl3 = (2, 50)%Q
  /\ osmotic_alphas FeCl3 <> alpha_table_by_charge_type FeCl3
  /\ activity_alphas MgSO4 = (2, 0)%Q
  /\ osmotic_alphas MgSO4 = (14 # 10, 12)%Q
  /\ activity_alphas MgSO4 <> osmotic_alphas MgSO4.
Proof.
  repeat split; try reflexivity; discriminate.
Qed.

(** FeCl3 in the osmotic loop: alpha1 = 2 and alpha2 = 0. *)
Lemma osmotic_alpha_table_witness :
  formula FeCl3 <> "HOH"
  /\ db.has_parameter test_db (formula FeCl3) "pitzer_parameters_activity" = true
  /\ exists alpha1 alpha2 : Q,
       osmotic_loop_body test_ac test_db ferric (0, 0)%Q (FeCl3, (1 # 10)%Q)
       = (Return ((0 + (1 # 10)
                       * ac.get_osmotic_coefficient_pitzer test_ac (6 # 10) (1 # 10)
                           alpha1 alpha2 (1 # 10) (2 # 10) 0 (1 # 100) 3 (-1) 1 3 "25 degC")%Q,
                  (0 + (1 # 10))%Q),
          [pitzer_osmotic_calculated
             (ac.get_osmotic_coefficient_pitzer test_ac (6 # 10) (1 # 10)
                alpha1 alpha2 (1 # 10) (2 # 10) 0 (1 # 100) 3 (-1) 1 3 "25 degC")
             "FeCl3"])
       /\ alpha1 = 2%Q /\ alpha2 = 0%Q.
Proof.
  assert (H1 : formula FeCl3 <> "HOH") by discriminate.
  split; [exact H1|]. split; [reflexivity|].
  destruct (osmotic_alpha_table test_ac test_db ferric (0, 0)%Q FeCl3 (1 # 10)%Q
              (1 # 10)%Q (2 # 10)%Q 0%Q (1 # 100)%Q [] H1 eq_refl eq_refl)
    as [alpha1 [alpha2 [Hbody [_ [_ Hother]]]]].
  exists alpha1, alpha2. split; [exact Hbody|].
  apply Hother. right. simpl. lia.
Defined.

(** The brine: NaCl has stored Pitzer volume parameters, nu = 1 and 1. *)
Lemma pitzer_volume_of_dominant_salt_witness :
  db.has_parameter test_db (formula (get_salt brine)) "pitzer_parameters_volume" = true
  /\ nu_cation (get_salt brine) <> 0%Z
  /\ nu_anion (get_salt brine) <> 0%Z
  /\ exists alpha1 alpha2 : Q,
       alpha1 = 2%Q /\ alpha2 = 0%Q
       /\ exists v : Quantity,
            get_solute_volume test_ac test_db brine
            = (Return (to v "L"),
               pitzer_volume_updated "NaCl" :: volume_log test_db brine true)
            /\ (v == ac.get_apparent_volume_pitzer test_ac (2 # 10) (((2 # 10) + (2 # 10)) / 2)
                       alpha1 alpha2 16 (1 # 10) (2 # 10) 0 (1 # 100) 1 (-1) 1 1 "25 degC"
                     * (((2 # 10) / 1 + (2 # 10) / 1) / 2)
                     + partial_molar_total test_db brine true)%Q.
Proof.
  assert (Hc : nu_cation (get_salt brine) <> 0%Z) by discriminate.
  assert (Ha : nu_anion (get_salt brine) <> 0%Z) by discriminate.
  split; [reflexivity|]. split; [exact Hc|]. split; [exact Ha|].
  destruct (pitzer_volume_of_dominant_salt test_ac test_db brine
              16%Q (1 # 10)%Q (2 # 10)%Q 0%Q (1 # 100)%Q [] eq_refl eq_refl Hc Ha)
    as [alpha1 [alpha2 [_ [[v [Hrun Hv]] [_ [_ Hother]]]]]].
  exists alpha1, alpha2.
  destruct Hother as [E1 E2]; [left; simpl; lia|].
  split; [exact E1|]. split; [exact E2|].
  exists v. split; [exact Hrun|exact Hv].
Defined.

(** MgSO4 has no stored Pitzer volume parameters and neither ion has a
    stored partial molar volume: the call returns 0 L and two warnings. *)
Lemma solute_volume_tolerates_missing_data_witness :
  db.has_parameter test_db (formula (get_salt epsom)) "pitzer_parameters_volume" = false
  /\ exists v : Quantity,
       get_solute_volume test_ac test_db epsom
       = (Return v, [no_partial_molar_volume "Mg+2"; no_partial_molar_volume "SO4-2"])
       /\ (v == 0)%Q.
Proof.
  split; [reflexivity|].
  destruct (proj1 (proj2 (solute_volume_tolerates_missing_data test_ac test_db epsom)) eq_refl)
    as [v [Hrun [Hv _]]].
  exists v. split; [exact Hrun|]. rewrite Hv. reflexivity.
Defined.

(** On the brine the call returns [None] and raises nothing. *)
Lemma equilibrate_counterexample :
  equilibrate brine = (Return tt, brine)
  /\ fst (equilibrate brine) <> Raise NotImplementedError.
Proof.
  split; [reflexivity|discriminate].
Qed.

(** ** Further properties of the engine *)

Section Coverage.

Variable lib : ac.t.
Variable paramsDB : db.t.
Variable salts : salt_ion_match.t.

(** *** get_activity_coefficient *)

Lemma activity_of_component (solution : Solution) (solute : string) (ion : Solute.t)
    (Salt : Salt) :
  dict_get (components solution) solute = Some ion ->
  find_salt solute (salt_ion_match.generate_salt_list salts solution "mol/kg") = Some Salt ->
  get_activity_coefficient lib paramsDB salts solution solute
  = activity_coefficient_of_salt lib paramsDB salts solution solute ion Salt.
Proof.
  intros Hion Hfind. unfold get_activity_coefficient, getitem.
  rewrite Hion, bind_ret, Hfind. reflexivity.
Qed.

(** The table of lines 238-247 tests the stoichiometric coefficients, and
    [nu_anion <= -2] fails for every coefficient above -2, so for a salt
    with a non-negative anion coefficient the Pitzer activity call always
    receives alpha1 = 2 and alpha2 = 0, whatever the charges are. *)
Theorem activity_pitzer_alphas_are_2_and_0 (solution : Solution) (solute : string)
    (ion : Solute.t) (Salt : Salt) (p0 p1 p2 p3 : Q) (rest : list Q) :
  dict_get (components solution) solute = Some ion ->
  find_salt solute (salt_ion_match.generate_salt_list salts solution "mol/kg") = Some Salt ->
  db.has_parameter paramsDB (formula Salt) "pitzer_parameters_activity" = true ->
  db.get_value (db.get_parameter paramsDB (formula Salt) "pitzer_parameters_activity")
  = p0 :: p1 :: p2 :: p3 :: rest ->
  (0 <= nu_anion Salt)%Z ->
  let gamma :=
    ac.get_activity_coefficient_pitzer lib
      (ionic_strength solution)
      (salt_ion_match.get_effective_molality salts Salt (ionic_strength solution))
      2 0 p0 p1 p2 p3
      (z_cation Salt) (z_anion Salt) (nu_cation Salt) (nu_anion Salt)
      (temperature solution) in
  get_activity_coefficient lib paramsDB salts solution solute
  = (Return gamma, [pitzer_activity_calculated solute gamma Salt]).
Proof.
  intros Hion Hfind Hhas Hval Hnu gamma.
  rewrite (activity_of_component _ _ _ _ Hion Hfind).
  rewrite (activity_pitzer_branch lib paramsDB salts solution solute ion Salt
             p0 p1 p2 p3 rest Hhas Hval).
  assert (E : activity_alphas Salt = (2, 0)%Q).
  { unfold activity_alphas.
    assert (E2 : (nu_anion Salt <=? -2)%Z = false) by (apply Z.leb_gt; lia).
    rewrite E2, andb_false_r. reflexivity. }
  rewrite E. reflexivity.
Qed.

(** With stored Pitzer parameters the value depends on the salt and not on
    which of its ions was asked for: the cation and the anion of one salt
    get the same outcome (the same coefficient, or the same error). *)
Theorem pitzer_activity_same_for_both_ions (solution : Solution) (solute1 solute2 : string)
    (ion1 ion2 : Solute.t) (Salt : Salt) :
  dict_get (components solution) solute1 = Some ion1 ->
  dict_get (components solution) solute2 = Some ion2 ->
  find_salt solute1 (salt_ion_match.generate_salt_list salts solution "mol/kg") = Some Salt ->
  find_salt solute2 (salt_ion_match.generate_salt_list salts solution "mol/kg") = Some Salt ->
  db.has_parameter paramsDB (formula Salt) "pitzer_parameters_activity" = true ->
  fst (get_activity_coefficient lib paramsDB salts solution solute1)
  = fst (get_activity_coefficient lib paramsDB salts solution solute2).
Proof.
  intros H1 H2 F1 F2 Hhas.
  rewrite (activity_of_component _ _ _ _ H1 F1), (activity_of_component _ _ _ _ H2 F2).
  unfold activity_coefficient_of_salt. rewrite Hhas.
  destruct (db.get_value (db.get_parameter paramsDB (formula Salt) "pitzer_parameters_activity"))
    as [|p0 [|p1 [|p2 [|p3 rest]]]]; reflexivity.
Qed.

(** Stored Pitzer parameters close the fallback path: when the stored tuple
    has fewer than four coefficients the call ends in [IndexError] with
    nothing logged, whatever the ionic strength, and no closed-form model
    is tried. *)
Theorem incomplete_pitzer_tuple_raises_IndexError (solution : Solution) (solute : string)
    (ion : Solute.t) (Salt : Salt) :
  dict_get (components solution) solute = Some ion ->
  find_salt solute (salt_ion_match.generate_salt_list salts solution "mol/kg") = Some Salt ->
  db.has_parameter paramsDB (formula Salt) "pitzer_parameters_activity" = true ->
  (List.length (db.get_value
                  (db.get_parameter paramsDB (formula Salt) "pitzer_parameters_activity")) < 4)%nat ->
  get_activity_coefficient lib paramsDB salts solution solute = (Raise IndexError, []).
Proof.
  intros Hion Hfind Hhas Hlen.
  rewrite (activity_of_component _ _ _ _ Hion Hfind).
  unfold activity_coefficient_of_salt. rewrite Hhas.
  destruct (db.get_value (db.get_parameter paramsDB (formula Salt) "pitzer_parameters_activity"))
    as [|p0 [|p1 [|p2 [|p3 rest]]]]; try reflexivity.
  simpl in Hlen. lia.
Qed.

(** A warning is only ever logged together with the unit coefficient:
    whenever the call logs a record of level WARNING, what it returns is
    exactly 1. *)
Theorem warning_means_unit_activity (solution : Solution) (solute : string) (r : log_record) :
  In r (snd (get_activity_coefficient lib paramsDB salts solution solute)) ->
  levelname r = WARNING ->
  fst (get_activity_coefficient lib paramsDB salts solution solute)
  = Return unit_1_dimensionless.
Proof.
  unfold get_activity_coefficient, getitem.
  destruct (dict_get (components solution) solute) as [ion|]; [|intros []].
  rewrite bind_ret.
  destruct (find_salt solute (salt_ion_match.generate_salt_list salts solution "mol/kg"))
    as [Salt|]; [|reflexivity].
  unfold activity_coefficient_of_salt.
  destruct (db.has_parameter paramsDB (formula Salt) "pitzer_parameters_activity").
  - destruct (db.get_value (db.get_parameter paramsDB (formula Salt) "pitzer_parameters_activity"))
      as [|p0 [|p1 [|p2 [|p3 rest]]]]; simpl; try tauto.
    intros [<-|[]]. discriminate.
  - destruct (Qle_bool (ionic_strength solution) (5 # 1000));
      [simpl; intros [<-|[]]; discriminate|].
    destruct (Qle_bool (ionic_strength solution) (1 # 10));
      [simpl; intros [<-|[]]; discriminate|].
    destruct (Qle_bool (ionic_strength solution) (5 # 10));
      [simpl; intros [<-|[]]; discriminate|].
    reflexivity.
Qed.

(** Without stored Pitzer parameters the coefficient is that of the ion,
    not of the salt: two solutes of one solution whose ions carry the same
    formal charge get the same coefficient, whatever salts they belong to. *)
Theorem fallback_activity_depends_on_charge (solution : Solution) (solute1 solute2 : string)
    (ion1 ion2 : Solute.t) (Salt1 Salt2 : Salt) :
  dict_get (components solution) solute1 = Some ion1 ->
  dict_get (components solution) solute2 = Some ion2 ->
  find_salt solute1 (salt_ion_match.generate_salt_list salts solution "mol/kg") = Some Salt1 ->
  find_salt solute2 (salt_ion_match.generate_salt_list salts solution "mol/kg") = Some Salt2 ->
  db.has_parameter paramsDB (formula Salt1) "pitzer_parameters_activity" = false ->
  db.has_parameter paramsDB (formula Salt2) "pitzer_parameters_activity" = false ->
  Solute.get_formal_charge ion1 = Solute.get_formal_charge ion2 ->
  fst (get_activity_coefficient lib paramsDB salts solution solute1)
  = fst (get_activity_coefficient lib paramsDB salts solution solute2).
Proof.
  intros H1 H2 F1 F2 P1 P2 Hz.
  rewrite (activity_of_component _ _ _ _ H1 F1), (activity_of_component _ _ _ _ H2 F2).
  unfold activity_coefficient_of_salt. rewrite P1, P2, Hz.
  destruct (Qle_bool (ionic_strength solution) (5 # 1000)); [reflexivity|].
  destruct (Qle_bool (ionic_strength solution) (1 # 10)); [reflexivity|].
  destruct (Qle_bool (ionic_strength solution) (5 # 10)); reflexivity.
Qed.

(** *** get_osmotic_coefficient *)

Lemma for_each_ext {A B : Type} (f g : A -> B -> M A) (l : list B) :
  (forall acc x, f acc x = g acc x) ->
  forall acc, for_each f acc l = for_each g acc l.
Proof.
  intros Hfg. induction l as [|x l IH]; intros acc; [reflexivity|].
  simpl. rewrite Hfg. unfold bind. destruct (g acc x) as [[acc'|e] log]; [|reflexivity].
  now rewrite IH.
Qed.

Lemma osmotic_loop_skips_solvent (solution : Solution) (l : list (Salt * Quantity)) :
  forall acc,
  for_each (osmotic_loop_body lib paramsDB solution) acc l
  = for_each (osmotic_loop_body lib paramsDB solution) acc
      (filter (fun entry => negb (is_solvent entry)) l).
Proof.
  induction l as [|entry l IH]; intros acc; [reflexivity|].
  simpl. destruct (is_solvent entry) eqn:Hs; simpl.
  - rewrite (osmotic_body_solvent lib paramsDB solution acc entry Hs), bind_ret. apply IH.
  - unfold bind.
    destruct (osmotic_loop_body lib paramsDB solution acc entry) as [[acc'|e] log];
      [|reflexivity].
    now rewrite IH.
Qed.

(** The loop of a solution whose stored tuples are complete. *)
Lemma osmotic_run (solution : Solution) :
  activity_parameters_complete paramsDB solution ->
  exists sums : Q * Q,
    for_each (osmotic_loop_body lib paramsDB solution) (0%Q, 0%Q) (get_salt_list solution)
    = (Return sums, osmotic_log lib paramsDB solution)
    /\ (fst sums == weighted_sum lib paramsDB solution)%Q
    /\ (snd sums == total_weight solution)%Q.
Proof.
  intros Hcomplete.
  destruct (osmotic_loop_sums lib paramsDB solution (get_salt_list solution)) with (acc := (0%Q, 0%Q))
    as [sums [Hrun [Hsum Htotal]]].
  { intros entry Hin Hs. apply Hcomplete. unfold aggregated_salts.
    apply filter_In. split; [exact Hin|]. now rewrite Hs. }
  exists sums. split; [exact Hrun|]. simpl fst in *. simpl snd in *. split.
  - rewrite Hsum. unfold weighted_sum, aggregated_salts. ring.
  - rewrite Htotal. unfold total_weight, aggregated_salts. ring.
Qed.

Lemma osmotic_returns (solution : Solution) :
  activity_parameters_complete paramsDB solution ->
  ~ (total_weight solution == 0)%Q ->
  exists phi : Quantity,
    get_osmotic_coefficient lib paramsDB solution
    = (Return phi, osmotic_log lib paramsDB solution)
    /\ (phi == weighted_sum lib paramsDB solution / total_weight solution)%Q.
Proof.
  intros Hcomplete Hweight.
  destruct (osmotic_run solution Hcomplete) as [sums [Hrun [Hs Ht]]].
  assert (Hnz : ~ (snd sums == 0)%Q) by (now rewrite Ht).
  exists (fst sums / snd sums)%Q. split.
  - unfold get_osmotic_coefficient. rewrite Hrun, bind_Return.
    rewrite (truediv_nonzero _ _ Hnz). simpl. now rewrite app_nil_r.
  - now rewrite Hs, Ht.
Qed.

Lemma Qsum_map_ext {A : Type} (f g : A -> Q) (l : list A) :
  (forall x, In x l -> (f x == g x)%Q) ->
  (Qsum (map f l) == Qsum (map g l))%Q.
Proof.
  induction l as [|x l IH]; intros H; simpl; [reflexivity|].
  rewrite (H x (or_introl eq_refl)), IH; [reflexivity|].
  intros y Hy. apply H. now right.
Qed.

(** The osmotic coefficient is a function of the ionic strength, the
    temperature and the salts other than HOH: two solutions that agree on
    these get the same outcome and the same log, whatever their components
    are and however many HOH entries their decompositions hold. *)
Theorem osmotic_depends_on_aggregated_salts (solution1 solution2 : Solution) :
  ionic_strength solution1 = ionic_strength solution2 ->
  temperature solution1 = temperature solution2 ->
  aggregated_salts solution1 = aggregated_salts solution2 ->
  get_osmotic_coefficient lib paramsDB solution1
  = get_osmotic_coefficient lib paramsDB solution2.
Proof.
  intros HI HT Hsalts. unfold get_osmotic_coefficient.
  rewrite (osmotic_loop_skips_solvent solution1), (osmotic_loop_skips_solvent solution2).
  fold (aggregated_salts solution1). fold (aggregated_salts solution2). rewrite Hsalts.
  rewrite (for_each_ext (osmotic_loop_body lib paramsDB solution1)
             (osmotic_loop_body lib paramsDB solution2)); [reflexivity|].
  intros acc entry. unfold osmotic_loop_body. now rewrite HI, HT.
Qed.


(** The guard that is missing before the final division matters beyond the
    empty decomposition: whenever the concentrations of the salts other
    than HOH add up to zero (salts listed at zero molality, for one), the
    call logs its record for every salt and then ends in the division's
    [ZeroDivisionError]. *)
Theorem osmotic_zero_weight_raises (solution : Solution) :
  activity_parameters_complete paramsDB solution ->
  (total_weight solution == 0)%Q ->
  get_osmotic_coefficient lib paramsDB solution
  = (Raise ZeroDivisionError, osmotic_log lib paramsDB solution).
Proof.
  intros Hcomplete Hzero.
  destruct (osmotic_run solution Hcomplete) as [sums [Hrun [_ Ht]]].
  unfold get_osmotic_coefficient. rewrite Hrun, bind_Return. unfold truediv.
  assert (E : Qeq_bool (snd sums) 0 = true).
  { apply Qeq_bool_iff. now rewrite Ht. }
  rewrite E. simpl. now rewrite app_nil_r.
Qed.

(** For a decomposition with one salt besides HOH the weight cancels: the
    osmotic coefficient of the solution is that salt's own coefficient,
    whatever its (non-zero) concentration. *)
Theorem osmotic_single_salt (solution : Solution) (item : Salt) (c : Quantity) :
  aggregated_salts solution = [(item, c)] ->
  activity_parameters_complete paramsDB solution ->
  ~ (c == 0)%Q ->
  exists phi : Quantity,
    get_osmotic_coefficient lib paramsDB solution
    = (Return phi, osmotic_log lib paramsDB solution)
    /\ (phi == salt_osmotic_coefficient lib paramsDB solution (item, c))%Q.
Proof.
  intros Hone Hcomplete Hc.
  assert (Hweight : ~ (total_weight solution == 0)%Q).
  { unfold total_weight. rewrite Hone. simpl. intros H. apply Hc. rewrite <- H. ring. }
  destruct (osmotic_returns solution Hcomplete Hweight) as [phi [Hrun Hphi]].
  exists phi. split; [exact Hrun|].
  rewrite Hphi. unfold weighted_sum, total_weight. rewrite Hone.
  unfold Qsum, map, fold_right, snd. field. exact Hc.
Qed.

Lemma Qsum_positive (l : list Q) :
  l <> [] -> (forall x, In x l -> (0 < x)%Q) -> (0 < Qsum l)%Q.
Proof.
  destruct l as [|x l]; [congruence|]. intros _ Hpos. simpl.
  assert (H0 : (0 <= Qsum l)%Q).
  { assert (Hl : forall y, In y l -> (0 < y)%Q) by (intros y Hy; apply Hpos; now right).
    clear Hpos. induction l as [|y l IH]; simpl; [apply Qle_refl|].
    apply Qle_trans with (0 + 0)%Q; [apply Qle_refl|].
    apply Qplus_le_compat.
    - apply Qlt_le_weak, Hl. now left.
    - apply IH. intros z Hz. apply Hl. now right. }
  apply Qlt_le_trans with (x + 0)%Q.
  - rewrite Qplus_0_r. apply Hpos. now left.
  - apply Qplus_le_compat; [apply Qle_refl|exact H0].
Qed.

Lemma weighted_sum_bounds {A : Type} (weight coefficient : A -> Q) (lo hi : Q) (l : list A) :
  (forall x, In x l -> (0 < weight x)%Q /\ (lo <= coefficient x)%Q /\ (coefficient x <= hi)%Q) ->
  (lo * Qsum (map weight l) <= Qsum (map (fun x => weight x * coefficient x) l))%Q
  /\ (Qsum (map (fun x => weight x * coefficient x) l) <= hi * Qsum (map weight l))%Q.
Proof.
  induction l as [|x l IH]; intros H; simpl.
  - split; rewrite Qmult_0_r; apply Qle_refl.
  - destruct (H x (or_introl eq_refl)) as [Hw [Hlo Hhi]].
    destruct IH as [IHlo IHhi]; [intros y Hy; apply H; now right|].
    split.
    + rewrite Qmult_plus_distr_r. apply Qplus_le_compat; [|exact IHlo].
      rewrite (Qmult_comm lo). apply Qmult_le_l; assumption.
    + rewrite Qmult_plus_distr_r. apply Qplus_le_compat; [|exact IHhi].
      rewrite (Qmult_comm hi). apply Qmult_le_l; assumption.
Qed.

(** With positive concentrations the aggregation is a convex combination:
    the osmotic coefficient of the solution lies between the smallest and
    the largest of the coefficients of its salts. *)
Theorem osmotic_between_extremes (solution : Solution) (lo hi : Q) :
  activity_parameters_complete paramsDB solution ->
  aggregated_salts solution <> [] ->
  (forall entry, In entry (aggregated_salts solution) ->
     (0 < snd entry)%Q
     /\ (lo <= salt_osmotic_coefficient lib paramsDB solution entry)%Q
     /\ (salt_osmotic_coefficient lib paramsDB solution entry <= hi)%Q) ->
  exists phi : Quantity,
    get_osmotic_coefficient lib paramsDB solution
    = (Return phi, osmotic_log lib paramsDB solution)
    /\ (lo <= phi)%Q /\ (phi <= hi)%Q.
Proof.
  intros Hcomplete Hnonempty Hall.
  assert (Hpos : (0 < total_weight solution)%Q).
  { unfold total_weight. apply Qsum_positive.
    - destruct (aggregated_salts solution); [congruence|discriminate].
    - intros x Hx. apply in_map_iff in Hx. destruct Hx as [entry [<- Hin]].
      apply (Hall entry Hin). }
  assert (Hweight : ~ (total_weight solution == 0)%Q).
  { intros H. rewrite H in Hpos. discriminate. }
  destruct (osmotic_returns solution Hcomplete Hweight) as [phi [Hrun Hphi]].
  destruct (weighted_sum_bounds snd (salt_osmotic_coefficient lib paramsDB solution)
              lo hi (aggregated_salts solution) Hall) as [Hlo Hhi].
  exists phi. split; [exact Hrun|]. rewrite Hphi. split.
  - apply Qle_shift_div_l; assumption.
  - apply Qle_shift_div_r; assumption.
Qed.

Lemma Qsum_Permutation (l1 l2 : list Q) : Permutation l1 l2 -> (Qsum l1 == Qsum l2)%Q.
Proof.
  induction 1 as [|x l1 l2 _ IH|x y l|l1 l2 l3 _ IH1 _ IH2]; simpl.
  - reflexivity.
  - now rewrite IH.
  - ring.
  - now rewrite IH1.
Qed.

Lemma filter_Permutation {A : Type} (f : A -> bool) (l1 l2 : list A) :
  Permutation l1 l2 -> Permutation (filter f l1) (filter f l2).
Proof.
  induction 1 as [|x l1 l2 _ IH|x y l|l1 l2 l3 _ IH1 _ IH2]; simpl.
  - constructor.
  - destruct (f x); [now constructor|exact IH].
  - destruct (f x), (f y); try apply Permutation_refl. constructor.
  - now apply Permutation_trans with (filter f l2).
Qed.

(** The osmotic coefficient does not depend on the order of the salts in
    the decomposition: two solutions with the same ionic strength and
    temperature whose decompositions list the same salts in another order
    return equal coefficients. *)
Theorem osmotic_order_independent (solution1 solution2 : Solution) :
  ionic_strength solution1 = ionic_strength solution2 ->
  temperature solution1 = temperature solution2 ->
  Permutation (get_salt_list solution1) (get_salt_list solution2) ->
  activity_parameters_complete paramsDB solution1 ->
  ~ (total_weight solution1 == 0)%Q ->
  exists phi1 phi2 : Quantity,
    get_osmotic_coefficient lib paramsDB solution1
    = (Return phi1, osmotic_log lib paramsDB solution1)
    /\ get_osmotic_coefficient lib paramsDB solution2
       = (Return phi2, osmotic_log lib paramsDB solution2)
    /\ (phi1 == phi2)%Q.
Proof.
  intros HI HT Hperm Hcomplete Hweight.
  assert (Hagg : Permutation (aggregated_salts solution1) (aggregated_salts solution2)).
  { unfold aggregated_salts. now apply filter_Permutation. }
  assert (Hcomplete2 : activity_parameters_complete paramsDB solution2).
  { intros entry Hin. apply Hcomplete.
    apply Permutation_in with (aggregated_salts solution2); [now apply Permutation_sym|exact Hin]. }
  assert (Ht : (total_weight solution1 == total_weight solution2)%Q).
  { unfold total_weight. apply Qsum_Permutation. now apply Permutation_map. }
  assert (Hs : (weighted_sum lib paramsDB solution1 == weighted_sum lib paramsDB solution2)%Q).
  { unfold weighted_sum.
    rewrite (Qsum_Permutation _ _
               (Permutation_map
                  (fun entry => (snd entry * salt_osmotic_coefficient lib paramsDB solution1 entry)%Q)
                  Hagg)).
    apply Qsum_map_ext. intros entry _.
    unfold salt_osmotic_coefficient. rewrite HI, HT. reflexivity. }
  assert (Hweight2 : ~ (total_weight solution2 == 0)%Q) by (now rewrite <- Ht).
  destruct (osmotic_returns solution1 Hcomplete Hweight) as [phi1 [R1 E1]].
  destruct (osmotic_returns solution2 Hcomplete2 Hweight2) as [phi2 [R2 E2]].
  exists phi1, phi2. split; [exact R1|]. split; [exact R2|].
  now rewrite E1, E2, Hs, Ht.
Qed.

(** *** get_solute_volume *)

Lemma volume_loop_skips_water (solution : Solution) (Salt : Salt) (pitzer_calc : bool)
    (l : list (string * Solute.t)) :
  forall start,
  for_each (volume_loop_body paramsDB solution Salt pitzer_calc) start l
  = for_each (volume_loop_body paramsDB solution Salt pitzer_calc) start
      (filter (fun entry => negb (is_water entry)) l).
Proof.
  induction l as [|entry l IH]; intros start; [reflexivity|].
  simpl. unfold is_water at 1. destruct (str_in (fst entry) ["H2O"; "HOH"]) eqn:Hw; simpl.
  - unfold volume_loop_body at 1. rewrite Hw, bind_ret. apply IH.
  - unfold bind.
    destruct (volume_loop_body paramsDB solution Salt pitzer_calc start entry) as [[v|e] log];
      [|reflexivity].
    now rewrite IH.
Qed.

Lemma Qsum_app (l1 l2 : list Q) : (Qsum (l1 ++ l2) == Qsum l1 + Qsum l2)%Q.
Proof.
  induction l1 as [|x l1 IH]; simpl; [ring|]. rewrite IH. ring.
Qed.

(** The entries for water never enter the volume: with every H2O and HOH
    entry removed from the components the call gives the same outcome and
    the same log, whether a partial molar volume is stored for water or not. *)
Theorem solute_volume_ignores_water (solution : Solution) :
  get_solute_volume lib paramsDB solution
  = get_solute_volume lib paramsDB
      (with_components solution
         (filter (fun entry => negb (is_water entry)) (components solution))).
Proof.
  unfold get_solute_volume, with_components. cbn [components get_salt].
  change (pitzer_volume lib paramsDB
            {| components := filter (fun entry => negb (is_water entry)) (components solution);
               ionic_strength := ionic_strength solution;
               temperature := temperature solution;
               get_amount := get_amount solution;
               get_salt := get_salt solution;
               get_salt_list := get_salt_list solution;
               get_solute := get_solute solution |} (get_salt solution))
    with (pitzer_volume lib paramsDB solution (get_salt solution)).
  destruct (pitzer_volume lib paramsDB solution (get_salt solution)) as [[start|e] l0];
    [|reflexivity].
  rewrite !bind_Return. rewrite (volume_loop_skips_water solution). reflexivity.
Qed.

(** Without Pitzer volume parameters for the dominant salt the volume is
    additive over the components: the call on the components [l1 ++ l2]
    returns the sum of what it returns on [l1] and on [l2], and logs what
    the two calls log, one after the other. *)
Theorem solute_volume_additive (solution : Solution) (l1 l2 : list (string * Solute.t)) :
  db.has_parameter paramsDB (formula (get_salt solution)) "pitzer_parameters_volume" = false ->
  exists v1 v2 v : Quantity,
    get_solute_volume lib paramsDB (with_components solution l1)
    = (Return (to v1 "L"), volume_log paramsDB (with_components solution l1) false)
    /\ get_solute_volume lib paramsDB (with_components solution l2)
       = (Return (to v2 "L"), volume_log paramsDB (with_components solution l2) false)
    /\ get_solute_volume lib paramsDB (with_components solution (l1 ++ l2))
       = (Return (to v "L"),
          volume_log paramsDB (with_components solution l1) false
          ++ volume_log paramsDB (with_components solution l2) false)
    /\ (v == v1 + v2)%Q.
Proof.
  intros Habsent.
  assert (Hrun : forall l, exists v,
            get_solute_volume lib paramsDB (with_components solution l)
            = (Return (to v "L"), volume_log paramsDB (with_components solution l) false)
            /\ (v == partial_molar_total paramsDB (with_components solution l) false)%Q).
  { intros l.
    destruct (solute_volume_after_pitzer lib paramsDB (with_components solution l)
                (unit_0_L, false) []) as [v [Hv1 Hv2]].
    { apply pitzer_volume_absent. exact Habsent. }
    exists v. split; [exact Hv1|]. rewrite Hv2. unfold unit_0_L. simpl fst. simpl snd. ring. }
  destruct (Hrun l1) as [v1 [R1 E1]]. destruct (Hrun l2) as [v2 [R2 E2]].
  destruct (Hrun (l1 ++ l2)) as [v [R E]].
  exists v1, v2, v. split; [exact R1|]. split; [exact R2|]. split.
  - rewrite R. f_equal. unfold volume_log, counted_solutes, with_components.
    cbn [components]. now rewrite map_app, filter_app, map_app.
  - rewrite E, E1, E2. unfold partial_molar_total, counted_solutes, with_components.
    cbn [components]. rewrite map_app, filter_app, map_app. apply Qsum_app.
Qed.

(** The volume does not depend on the order in which the components are
    iterated: once the Pitzer part has returned, the calls on two orderings
    of the same components return equal volumes and log the same records,
    in the order of the iteration. *)
Theorem solute_volume_order_independent (solution : Solution)
    (l l' : list (string * Solute.t)) (start : Quantity * bool) (l0 : list log_record) :
  Permutation l l' ->
  pitzer_volume lib paramsDB solution (get_salt solution) = (Return start, l0) ->
  exists v v' : Quantity,
    get_solute_volume lib paramsDB (with_components solution l)
    = (Return (to v "L"), l0 ++ volume_log paramsDB (with_components solution l) (snd start))
    /\ get_solute_volume lib paramsDB (with_components solution l')
       = (Return (to v' "L"), l0 ++ volume_log paramsDB (with_components solution l') (snd start))
    /\ (v == v')%Q
    /\ Permutation (volume_log paramsDB (with_components solution l) (snd start))
         (volume_log paramsDB (with_components solution l') (snd start)).
Proof.
  intros Hperm Hstart.
  destruct (solute_volume_after_pitzer lib paramsDB (with_components solution l) start l0 Hstart)
    as [v [R E]].
  destruct (solute_volume_after_pitzer lib paramsDB (with_components solution l') start l0 Hstart)
    as [v' [R' E']].
  assert (Hcounted : Permutation (counted_solutes (with_components solution l) (snd start))
                       (counted_solutes (with_components solution l') (snd start))).
  { unfold counted_solutes, with_components. cbn [components get_salt].
    apply filter_Permutation. now apply Permutation_map. }
  exists v, v'. split; [exact R|]. split; [exact R'|]. split.
  - rewrite E, E'. apply Qplus_comp; [reflexivity|].
    unfold partial_molar_total. apply Qsum_Permutation.
    change (volume_contribution paramsDB (with_components solution l'))
      with (volume_contribution paramsDB (with_components solution l)).
    now apply Permutation_map.
  - unfold volume_log. now apply Permutation_map.
Qed.

End Coverage.

(** ** The further properties on the concrete solutions *)

(** MgSO4 is a 2:2 salt with nu = 1 and 1: its activity call gets (2, 0). *)
Lemma activity_pitzer_alphas_are_2_and_0_witness :
  z_cation MgSO4 = 2%Z /\ z_anion MgSO4 = (-2)%Z /\ (0 <= nu_anion MgSO4)%Z
  /\ get_activity_coefficient test_ac test_db test_salts epsom "Mg+2"
     = (Return (ac.get_activity_coefficient_pitzer test_ac (4 # 10)
                  (effective_molality MgSO4 (4 # 10)) 2 0 (1 # 10) (2 # 10) 0 (1 # 100)
                  2 (-2) 1 1 "25 degC"),
        [pitzer_activity_calculated "Mg+2"
           (ac.get_activity_coefficient_pitzer test_ac (4 # 10)
              (effective_molality MgSO4 (4 # 10)) 2 0 (1 # 10) (2 # 10) 0 (1 # 100)
              2 (-2) 1 1 "25 degC")
           MgSO4]).
Proof.
  assert (Hnu : (0 <= nu_anion MgSO4)%Z) by (simpl; lia).
  split; [reflexivity|]. split; [reflexivity|]. split; [exact Hnu|].
  exact (activity_pitzer_alphas_are_2_and_0 test_ac test_db test_salts epsom "Mg+2"
           (mk_solute 2 (1 # 10) 0) MgSO4 (1 # 10)%Q (2 # 10)%Q 0%Q (1 # 100)%Q []
           eq_refl eq_refl eq_refl eq_refl Hnu).
Defined.

(** Na+ and Cl- of the brine both belong to NaCl. *)
Lemma pitzer_activity_same_for_both_ions_witness :
  find_salt "Na+" (salt_ion_match.generate_salt_list test_salts brine "mol/kg") = Some NaCl
  /\ find_salt "Cl-" (salt_ion_match.generate_salt_list test_salts brine "mol/kg") = Some NaCl
  /\ fst (get_activity_coefficient test_ac test_db test_salts brine "Na+")
     = fst (get_activity_coefficient test_ac test_db test_salts brine "Cl-").
Proof.
  split; [reflexivity|]. split; [reflexivity|].
  exact (pitzer_activity_same_for_both_ions test_ac test_db test_salts brine "Na+" "Cl-"
           (mk_solute 1 (2 # 10) (-1 # 1000)) (mk_solute (-1) (2 # 10) (17 # 1000)) NaCl
           eq_refl eq_refl eq_refl eq_refl eq_refl).
Defined.

(** The brine at I = 0.2 would be within reach of the Davies equation. *)
Lemma incomplete_pitzer_tuple_raises_IndexError_witness :
  db.has_parameter truncated_db (formula NaCl) "pitzer_parameters_activity" = true
  /\ (List.length (db.get_value
                     (db.get_parameter truncated_db (formula NaCl) "pitzer_parameters_activity"))
      < 4)%nat
  /\ get_activity_coefficient test_ac truncated_db test_salts brine "Na+"
     = (Raise IndexError, []).
Proof.
  assert (Hlen : (List.length (db.get_value
                     (db.get_parameter truncated_db (formula NaCl) "pitzer_parameters_activity"))
                  < 4)%nat) by (simpl; lia).
  split; [reflexivity|]. split; [exact Hlen|].
  exact (incomplete_pitzer_tuple_raises_IndexError test_ac truncated_db test_salts brine "Na+"
           (mk_solute 1 (2 # 10) (-1 # 1000)) NaCl eq_refl eq_refl eq_refl Hlen).
Defined.

Lemma warning_means_unit_activity_witness :
  In (no_salts_found "CO2") (snd (get_activity_coefficient test_ac test_db test_salts brine "CO2"))
  /\ fst (get_activity_coefficient test_ac test_db test_salts brine "CO2") = Return 1%Q.
Proof.
  assert (Hin : In (no_salts_found "CO2")
                  (snd (get_activity_coefficient test_ac test_db test_salts brine "CO2")))
    by (simpl; left; reflexivity).
  split; [exact Hin|].
  exact (warning_means_unit_activity test_ac test_db test_salts brine "CO2" _ Hin eq_refl).
Defined.

(** K+ and Rb+ carry the same charge and belong to different salts. *)
Lemma fallback_activity_depends_on_charge_witness :
  find_salt "K+" (salt_ion_match.generate_salt_list test_salts alkali "mol/kg") = Some KCl
  /\ find_salt "Rb+" (salt_ion_match.generate_salt_list test_salts alkali "mol/kg") = Some RbCl
  /\ fst (get_activity_coefficient test_ac test_db test_salts alkali "K+")
     = fst (get_activity_coefficient test_ac test_db test_salts alkali "Rb+").
Proof.
  split; [reflexivity|]. split; [reflexivity|].
  exact (fallback_activity_depends_on_charge test_ac test_db test_salts alkali "K+" "Rb+"
           (mk_solute 1 (1 # 100) (9 # 1000)) (mk_solute 1 (1 # 100) (14 # 1000)) KCl RbCl
           eq_refl eq_refl eq_refl eq_refl eq_refl eq_refl eq_refl).
Defined.

(** The brine and a container that has no components and lists NaCl only. *)
Lemma osmotic_depends_on_aggregated_salts_witness :
  aggregated_salts brine = aggregated_salts (mk_solution [] (2 # 10) KCl [(NaCl, 2 # 10)])
  /\ get_osmotic_coefficient test_ac test_db brine
     = get_osmotic_coefficient test_ac test_db (mk_solution [] (2 # 10) KCl [(NaCl, 2 # 10)]).
Proof.
  split; [reflexivity|].
  exact (osmotic_depends_on_aggregated_salts test_ac test_db brine
           (mk_solution [] (2 # 10) KCl [(NaCl, 2 # 10)]) eq_refl eq_refl eq_refl).
Defined.


(** NaCl listed at zero molality: the record for NaCl is logged, then the
    division fails. *)
Lemma osmotic_zero_weight_raises_witness :
  (total_weight trace_brine == 0)%Q
  /\ get_osmotic_coefficient test_ac test_db trace_brine
     = (Raise ZeroDivisionError, osmotic_log test_ac test_db trace_brine)
  /\ List.length (osmotic_log test_ac test_db trace_brine) = 1%nat.
Proof.
  assert (Hcomplete : activity_parameters_complete test_db trace_brine).
  { intros entry _ _. simpl. lia. }
  assert (Hzero : (total_weight trace_brine == 0)%Q) by reflexivity.
  split; [exact Hzero|]. split; [|reflexivity].
  exact (osmotic_zero_weight_raises test_ac test_db trace_brine Hcomplete Hzero).
Defined.

Lemma osmotic_single_salt_witness :
  aggregated_salts brine = [(NaCl, (2 # 10)%Q)]
  /\ exists phi : Quantity,
       get_osmotic_coefficient test_ac test_db brine
       = (Return phi, osmotic_log test_ac test_db brine)
       /\ (phi == salt_osmotic_coefficient test_ac test_db brine (NaCl, (2 # 10)%Q))%Q.
Proof.
  assert (Hcomplete : activity_parameters_complete test_db brine).
  { intros entry _ _. simpl. lia. }
  assert (Hc : ~ (2 # 10 == 0)%Q) by (vm_compute; discriminate).
  split; [reflexivity|].
  exact (osmotic_single_salt test_ac test_db brine NaCl (2 # 10)%Q eq_refl Hcomplete Hc).
Defined.

(** In the mixture the coefficients are 1 (KCl) and 2.05 (NaCl). *)
Lemma osmotic_between_extremes_witness :
  aggregated_salts mixture <> []
  /\ exists phi : Quantity,
       get_osmotic_coefficient test_ac test_db mixture
       = (Return phi, osmotic_log test_ac test_db mixture)
       /\ (1 <= phi)%Q /\ (phi <= 205 # 100)%Q.
Proof.
  assert (Hcomplete : activity_parameters_complete test_db mixture).
  { intros entry _ _. simpl. lia. }
  assert (Hnonempty : aggregated_salts mixture <> []) by discriminate.
  assert (Hall : forall entry, In entry (aggregated_salts mixture) ->
            (0 < snd entry)%Q
            /\ (1 <= salt_osmotic_coefficient test_ac test_db mixture entry)%Q
            /\ (salt_osmotic_coefficient test_ac test_db mixture entry <= 205 # 100)%Q).
  { intros entry [<-|[<-|[]]]; (split; [reflexivity|split; vm_compute; discriminate]). }
  split; [exact Hnonempty|].
  exact (osmotic_between_extremes test_ac test_db mixture 1%Q (205 # 100)%Q
           Hcomplete Hnonempty Hall).
Defined.

(** The mixture with its two salts listed the other way round. *)
Lemma osmotic_order_independent_witness :
  Permutation (get_salt_list mixture) [(KCl, (1 # 2)%Q); (NaCl, (1 # 2)%Q)]
  /\ exists phi1 phi2 : Quantity,
       get_osmotic_coefficient test_ac test_db mixture
       = (Return phi1, osmotic_log test_ac test_db mixture)
       /\ get_osmotic_coefficient test_ac test_db
            (mk_solution [] 1 NaCl [(KCl, 1 # 2); (NaCl, 1 # 2)])
          = (Return phi2,
             osmotic_log test_ac test_db (mk_solution [] 1 NaCl [(KCl, 1 # 2); (NaCl, 1 # 2)]))
       /\ (phi1 == phi2)%Q.
Proof.
  assert (Hperm : Permutation (get_salt_list mixture) [(KCl, (1 # 2)%Q); (NaCl, (1 # 2)%Q)])
    by apply perm_swap.
  assert (Hcomplete : activity_parameters_complete test_db mixture).
  { intros entry _ _. simpl. lia. }
  assert (Hweight : ~ (total_weight mixture == 0)%Q) by (vm_compute; discriminate).
  split; [exact Hperm|].
  exact (osmotic_order_independent test_ac test_db mixture
           (mk_solution [] 1 NaCl [(KCl, 1 # 2); (NaCl, 1 # 2)])
           eq_refl eq_refl Hperm Hcomplete Hweight).
Defined.

(** Epsom salt has no stored Pitzer volume parameters. *)
Lemma solute_volume_additive_witness :
  db.has_parameter test_db (formula (get_salt epsom)) "pitzer_parameters_volume" = false
  /\ exists v1 v2 v : Quantity,
       get_solute_volume test_ac test_db
         (with_components epsom [("Na+", mk_solute 1 (2 # 10) (-1 # 1000))])
       = (Return (to v1 "L"), [partial_molar_volume_updated "Na+"])
       /\ get_solute_volume test_ac test_db
            (with_components epsom [("Mg+2", mk_solute 2 (1 # 10) 0)])
          = (Return (to v2 "L"), [no_partial_molar_volume "Mg+2"])
       /\ get_solute_volume test_ac test_db
            (with_components epsom
               ([("Na+", mk_solute 1 (2 # 10) (-1 # 1000))] ++ [("Mg+2", mk_solute 2 (1 # 10) 0)]))
          = (Return (to v "L"), [partial_molar_volume_updated "Na+"; no_partial_molar_volume "Mg+2"])
       /\ (v == v1 + v2)%Q.
Proof.
  split; [reflexivity|].
  exact (solute_volume_additive test_ac test_db epsom
           [("Na+", mk_solute 1 (2 # 10) (-1 # 1000))] [("Mg+2", mk_solute 2 (1 # 10) 0)]
           eq_refl).
Defined.

(** The brine with CO2 iterated before the ions. *)
Lemma solute_volume_order_independent_witness :
  exists v v' : Quantity,
    get_solute_volume test_ac test_db
      (with_components brine
         [("Na+", mk_solute 1 (2 # 10) (-1 # 1000)); ("CO2", mk_solute 0 (1 # 100) (34 # 1000))])
    = (Return (to v "L"), [pitzer_volume_updated "NaCl"; no_partial_molar_volume "CO2"])
    /\ get_solute_volume test_ac test_db
         (with_components brine
            [("CO2", mk_solute 0 (1 # 100) (34 # 1000)); ("Na+", mk_solute 1 (2 # 10) (-1 # 1000))])
       = (Return (to v' "L"), [pitzer_volume_updated "NaCl"; no_partial_molar_volume "CO2"])
    /\ (v == v')%Q.
Proof.
  destruct (solute_volume_order_independent test_ac test_db brine
              [("Na+", mk_solute 1 (2 # 10) (-1 # 1000)); ("CO2", mk_solute 0 (1 # 100) (34 # 1000))]
              [("CO2", mk_solute 0 (1 # 100) (34 # 1000)); ("Na+", mk_solute 1 (2 # 10) (-1 # 1000))]
              _ _ (perm_swap _ _ _) eq_refl)
    as [v [v' [R [R' [E _]]]]].
  exists v, v'. split; [exact R|]. split; [exact R'|exact E].
Defined.

End NativeEOS.
